(** * Moka: chainable wrappers over Python's list and dict

    A shallow embedding of [moka/__init__.py] (classes [List] and [Dict]) and
    the properties of its argument binder, its transforms and its queries.

    Wrapper instances live in a heap of objects addressed by references, so
    that "returns the receiver" and "returns a new instance" are different
    outcomes.  Elements are first-order Python values; callables are Rocq
    functions from positional and keyword arguments to a result or a raised
    exception.  Callables are assumed not to touch the heap. *)

From Stdlib Require Import ZArith String Ascii.
From stdpp Require Import base option list gmap.

Set Warnings "-register-all".
Local Open Scope string_scope.
Local Open Scope list_scope.

(** ** Python values *)

(** The values stored in the containers.  [PBlank] is the class object
    [Blank] (the placeholder [_]); [PList] and [PTuple] are sequences held as
    elements. *)
Inductive pyval : Type :=
  | PNone
  | PBool (b : bool)
  | PInt (n : Z)
  | PStr (s : string)
  | PBlank
  | PTuple (xs : list pyval)
  | PList (xs : list pyval).

(** Exceptions the module can raise by itself, and any other one raised by a
    callable of the caller. *)
Inductive exn : Type :=
  | TypeError
  | ValueError
  | IndexError
  | AttributeError
  | OtherError (name : string).

Inductive res (A : Type) : Type :=
  | Ok (a : A)
  | Raise (e : exn).
Arguments Ok {A} a.
Arguments Raise {A} e.

#[global] Instance res_ret : MRet res := fun _ a => Ok a.
#[global] Instance res_bind : MBind res := fun _ _ k m =>
  match m with Ok a => k a | Raise e => Raise e end.

Definition is_Ok {A} (r : res A) : Prop := exists a, r = Ok a.

(** Keyword arguments as a method body receives them in [**kwargs], in the
    order [kwargs.items()] lists them. *)
Definition kwargs : Type := list (string * pyval).

(** A callable applied to [*args, **kwargs]. *)
Definition callable : Type := list pyval -> kwargs -> res pyval.

(** Positional arguments at a call site of a wrapper method: none, or a
    callable followed by plain values. *)
Inductive posargs : Type :=
  | NoArgs
  | Args (f : callable) (rest : list pyval).

(** [bool(v)] *)
Definition truthy (v : pyval) : bool :=
  match v with
  | PNone => false
  | PBool b => b
  | PInt n => negb (n =? 0)%Z
  | PStr s => negb (String.eqb s "")
  | PBlank => true
  | PTuple xs | PList xs => match xs with [] => false | _ :: _ => true end
  end.

(** Numbers ([bool] is a subtype of [int]). *)
Definition py_num (v : pyval) : option Z :=
  match v with
  | PBool b => Some (Z.b2z b)
  | PInt n => Some n
  | _ => None
  end.

(** Rank of a type in Python 2's default ordering of unrelated types: [None]
    first, then numbers, then by type name
    (classobj < list < str < tuple). *)
Definition py_rank (v : pyval) : nat :=
  match v with
  | PNone => 0
  | PBool _ | PInt _ => 1
  | PBlank => 2
  | PList _ => 3
  | PStr _ => 4
  | PTuple _ => 5
  end.

(** [cmp(a, b)] *)
Fixpoint py_cmp (a b : pyval) {struct a} : comparison :=
  let fix cmp_seq (xs ys : list pyval) {struct xs} : comparison :=
    match xs, ys with
    | [], [] => Eq
    | [], _ :: _ => Lt
    | _ :: _, [] => Gt
    | x :: xs', y :: ys' =>
        match py_cmp x y with Eq => cmp_seq xs' ys' | c => c end
    end in
  match a, b with
  | PNone, PNone => Eq
  | PBlank, PBlank => Eq
  | PStr s, PStr t => String.compare s t
  | PList xs, PList ys => cmp_seq xs ys
  | PTuple xs, PTuple ys => cmp_seq xs ys
  | _, _ =>
      match py_num a, py_num b with
      | Some m, Some n => Z.compare m n
      | _, _ => Nat.compare (py_rank a) (py_rank b)
      end
  end.

(** [a == b] *)
Definition py_eq (a b : pyval) : bool :=
  match py_cmp a b with Eq => true | _ => false end.

(** [a < b] *)
Definition py_lt (a b : pyval) : bool :=
  match py_cmp a b with Lt => true | _ => false end.

(** [x in xs] and [xs.index(x)] compare with [==]. *)
Definition py_in (x : pyval) (xs : list pyval) : bool :=
  existsb (fun a => py_eq a x) xs.

Fixpoint py_index (x : pyval) (xs : list pyval) : option nat :=
  match xs with
  | [] => None
  | a :: xs' => if py_eq a x then Some 0 else S <$> py_index x xs'
  end.


(** ** The heap of wrapper instances *)

Definition loc : Type := positive.

(** A [List] instance holds its elements; a [Dict] instance holds its pairs
    in the order [items()] lists them, and the flag [_moka_save]. *)
Inductive obj : Type :=
  | OList (items : list pyval)
  | ODict (items : list (pyval * pyval)) (moka_save : bool).

Abbreviation heap := (gmap loc obj).

(** Creating an instance: a reference no live object has. *)
Definition alloc (o : obj) (h : heap) : loc * heap :=
  let r := fresh (dom h) in (r, <[r := o]> h).

Definition list_items (h : heap) (r : loc) : list pyval :=
  match h !! r with Some (OList l) => l | _ => [] end.

Definition dict_items (h : heap) (r : loc) : list (pyval * pyval) :=
  match h !! r with Some (ODict kv _) => kv | _ => [] end.

Definition dict_save (h : heap) (r : loc) : bool :=
  match h !! r with Some (ODict _ b) => b | _ => false end.

(** ** class List *)

(** The one-argument function [_f] returns. *)
Definition bound : Type := pyval -> res pyval.

(** [args.index(Blank)] *)
Definition index_Blank (args : list pyval) : res nat :=
  match py_index PBlank args with
  | Some pos => Ok pos
  | None => Raise ValueError
  end.

(** One call of the closure [tmp] of [List._f], on the list [args] it
    captured: [args[pos] = x; return f( *args, **kwargs)].  The list is the
    closure's own state, handed on to the next call. *)
Definition tmp_call (f : callable) (pos : nat) (kw : kwargs)
    (x : pyval) (args : list pyval) : list pyval * res pyval :=
  let args' := <[pos := x]> args in (args', f args' kw).

(** The results of calling [tmp] on [xs] one after the other, threading the
    captured list. *)
Fixpoint tmp_calls (f : callable) (pos : nat) (kw : kwargs)
    (xs : list pyval) (args : list pyval) : list (res pyval) :=
  match xs with
  | [] => []
  | x :: xs' =>
      let '(args', r) := tmp_call f pos kw x args in
      r :: tmp_calls f pos kw xs' args'
  end.

(** [tmp] as a function of the element alone: the slot [pos] is overwritten
    before every use, so the call made from the list as captured is the call
    made from any later state of it (lemma [tmp_calls_tmp]). *)
Definition tmp (f : callable) (pos : nat) (kw : kwargs)
    (args : list pyval) : bound :=
  fun x => (tmp_call f pos kw x args).2.

(** The body of [List._f(self, f, *args, **kwargs)], its parameters bound. *)
Definition List__f_body (f : callable) (args : list pyval) (kw : kwargs)
    : res bound :=
  match args, kw with
  | [], [] => Ok (fun x => f [x] [])
  | _, _ =>
      if negb (py_in PBlank args) then Ok (fun x => f (x :: args) kw)
      else
        pos ← index_Blank args;
        Ok (tmp f pos kw args)
  end.

(** [kwargs.get(name)] and [kwargs] without [name]. *)
Fixpoint kw_lookup (name : string) (kw : kwargs) : option pyval :=
  match kw with
  | [] => None
  | (k, v) :: kw' => if String.eqb k name then Some v else kw_lookup name kw'
  end.

Definition kw_remove (name : string) (kw : kwargs) : kwargs :=
  List.filter (fun e => negb (String.eqb e.1 name)) kw.

(** Calling one of the values of [pyval], none of which is a function that
    takes arguments. *)
Definition not_callable : callable := fun _ _ => Raise TypeError.

(** The call [self._f( *args, **kwargs)] that the methods make.  Python binds
    the parameter [f] of [_f] to the first positional argument, or else to
    the keyword of that name, and refuses the call ([TypeError]) when there
    is neither or both.  The keywords of a method call never include [self],
    which Python refuses before the method runs. *)
Definition List__f (args : posargs) (kw : kwargs) : res bound :=
  match args, kw_lookup "f" kw with
  | NoArgs, None => Raise TypeError
  | NoArgs, Some _ => List__f_body not_callable [] (kw_remove "f" kw)
  | Args f rest, None => List__f_body f rest kw
  | Args _ _, Some _ => Raise TypeError
  end.

(** [List(iterable)] *)
Definition List_new (items : list pyval) (h : heap) : loc * heap :=
  alloc (OList items) h.

(** [self[:] = items; return self] *)
Definition List__moka_assign (self : loc) (items : list pyval) (h : heap)
    : loc * heap :=
  (self, <[self := OList items]> h).

Definition List_clone (self : loc) (h : heap) : loc * heap :=
  List_new (list_items h self) h.

(** The generator [f(x) for x in self], as consumed by the slice
    assignment: left to right, up to the first exception. *)
Fixpoint gen_map (f : bound) (xs : list pyval) : res (list pyval) :=
  match xs with
  | [] => Ok []
  | x :: xs' => y ← f x; ys ← gen_map f xs'; Ok (y :: ys)
  end.

(** The generators [x for x in self if f(x)] ([test] is [truthy]) and
    [x for x in self if not f(x)] ([test] is its negation). *)
Fixpoint gen_filter (test : pyval -> bool) (f : bound) (xs : list pyval)
    : res (list pyval) :=
  match xs with
  | [] => Ok []
  | x :: xs' =>
      v ← f x; ys ← gen_filter test f xs';
      Ok (if test v then x :: ys else ys)
  end.

Definition falsy (v : pyval) : bool := negb (truthy v).

Definition List_map (args : posargs) (kw : kwargs) (self : loc) (h : heap)
    : res (loc * heap) :=
  f ← List__f args kw;
  items ← gen_map f (list_items h self);
  Ok (List__moka_assign self items h).

Definition List_keep (args : posargs) (kw : kwargs) (self : loc) (h : heap)
    : res (loc * heap) :=
  f ← List__f args kw;
  items ← gen_filter truthy f (list_items h self);
  Ok (List__moka_assign self items h).

Definition List_rem (args : posargs) (kw : kwargs) (self : loc) (h : heap)
    : res (loc * heap) :=
  f ← List__f args kw;
  items ← gen_filter falsy f (list_items h self);
  Ok (List__moka_assign self items h).

(** [for x in self: if f(x): continue; return False] then [return True] *)
Fixpoint loop_all (f : bound) (xs : list pyval) : res bool :=
  match xs with
  | [] => Ok true
  | x :: xs' => v ← f x; if truthy v then loop_all f xs' else Ok false
  end.

(** [for x in self: if f(x): return True] then [return False] *)
Fixpoint loop_some (f : bound) (xs : list pyval) : res bool :=
  match xs with
  | [] => Ok false
  | x :: xs' => v ← f x; if truthy v then Ok true else loop_some f xs'
  end.

(** [for x in self: if f(x): return x]; falling off the end of the function
    returns [None]. *)
Fixpoint loop_find (f : bound) (xs : list pyval) : res pyval :=
  match xs with
  | [] => Ok PNone
  | x :: xs' => v ← f x; if truthy v then Ok x else loop_find f xs'
  end.

Definition List_empty (args : posargs) (kw : kwargs) (self : loc) (h : heap)
    : res bool :=
  match args, kw with
  | NoArgs, [] => Ok (negb (truthy (PList (list_items h self))))
  | _, _ => f ← List__f args kw; loop_all f (list_items h self)
  end.

Definition List_keep_then_len (args : posargs) (kw : kwargs) (self : loc)
    (h : heap) : res (nat * heap) :=
  '(r, h') ← List_keep args kw self h;
  Ok (length (list_items h' r), h').

(** [count]: with arguments, [self.clone().keep( *args, **kwargs).count()],
    whose last call is the argument-free case. *)
Definition List_count (args : posargs) (kw : kwargs) (self : loc) (h : heap)
    : res (nat * heap) :=
  match args, kw with
  | NoArgs, [] => Ok (length (list_items h self), h)
  | _, _ =>
      let '(c, h1) := List_clone self h in
      List_keep_then_len args kw c h1
  end.

Definition List_find (args : posargs) (kw : kwargs) (self : loc) (h : heap)
    : res pyval :=
  f ← List__f args kw; loop_find f (list_items h self).

Definition List_some (args : posargs) (kw : kwargs) (self : loc) (h : heap)
    : res bool :=
  f ← List__f args kw; loop_some f (list_items h self).

Definition List_all (args : posargs) (kw : kwargs) (self : loc) (h : heap)
    : res bool :=
  f ← List__f args kw; loop_all f (list_items h self).

Definition List_has := List_some.

(** *** The builtin list's in-place primitives, on the contents *)

Definition list_append (x : pyval) (l : list pyval) : res (list pyval) :=
  Ok (l ++ [x]).

(** [list(v)] for the values that can be iterated. *)
Definition iter_items (v : pyval) : res (list pyval) :=
  match v with
  | PList xs | PTuple xs => Ok xs
  | PStr s =>
      Ok ((fun c => PStr (String c EmptyString)) <$> list_ascii_of_string s)
  | _ => Raise TypeError
  end.

Definition list_extend (it : pyval) (l : list pyval) : res (list pyval) :=
  xs ← iter_items it; Ok (l ++ xs).

(** [insert] counts a negative index from the end and clamps it. *)
Definition list_insert (i : Z) (x : pyval) (l : list pyval)
    : res (list pyval) :=
  let n := Z.of_nat (length l) in
  let i := if (i <? 0)%Z then (i + n)%Z else i in
  let i := if (i <? 0)%Z then 0%Z else if (n <? i)%Z then n else i in
  Ok (take (Z.to_nat i) l ++ x :: drop (Z.to_nat i) l).

Definition list_reverse (l : list pyval) : res (list pyval) :=
  Ok (reverse l).

Fixpoint insert_sorted (x : pyval) (l : list pyval) : list pyval :=
  match l with
  | [] => [x]
  | y :: l' => if py_lt y x then y :: insert_sorted x l' else x :: l
  end.

(** [sort()] without arguments: stable, ascending for [<]. *)
Definition list_sort (l : list pyval) : res (list pyval) :=
  Ok (foldr insert_sorted [] l).

(** The method [wrap] that [List._proxy(method_name)] installs; [prim] is
    [getattr(list, method_name)] with the call's arguments, acting on the
    contents of [inst]. *)
Definition List__proxy (prim : list pyval -> res (list pyval))
    (self : loc) (h : heap) : res (loc * heap) :=
  let '(inst, h1) := List_new (list_items h self) h in
  items ← prim (list_items h1 inst);
  Ok (inst, <[inst := OList items]> h1).

Definition List_append (x : pyval) := List__proxy (list_append x).
Definition List_extend (it : pyval) := List__proxy (list_extend it).
Definition List_sort := List__proxy list_sort.
Definition List_reverse := List__proxy list_reverse.
Definition List_insert (i : Z) (x : pyval) := List__proxy (list_insert i x).

(** ** class Dict *)

(** The two-argument function [Dict._f] returns. *)
Definition bound2 : Type := pyval -> pyval -> res pyval.

(** One call of the closure [tmp] of [Dict._f] on its captured list:
    [args[0] = x; args[1] = y; return f( *args, **kwargs)]. *)
Definition tmp2_call (f : callable) (kw : kwargs) (x y : pyval)
    (args : list pyval) : list pyval * res pyval :=
  let args' := <[1 := y]> (<[0 := x]> args) in (args', f args' kw).

Definition tmp2 (f : callable) (kw : kwargs) (args : list pyval) : bound2 :=
  fun x y => (tmp2_call f kw x y args).2.

(** [d[k] = v] on the pairs of a dict: an equal key keeps its place and takes
    the new value, a new key goes last.  The place of a new key is a choice
    of this model: Python 2 lists the pairs of a dict by hash slot, so that
    of a dict built here the pairs, the lookups and the length are the
    program's, and the order of the list is not. *)
Fixpoint dict_setitem (k v : pyval) (d : list (pyval * pyval))
    : list (pyval * pyval) :=
  match d with
  | [] => [(k, v)]
  | (k', v') :: d' =>
      if py_eq k' k then (k', v) :: d' else (k', v') :: dict_setitem k v d'
  end.

Fixpoint hashable (v : pyval) : bool :=
  match v with
  | PList _ => false
  | PTuple xs => forallb hashable xs
  | _ => true
  end.

(** An item of the sequence given to [dict(...)]: any sequence of length
    two. *)
Definition unpack_pair (item : pyval) : res (pyval * pyval) :=
  match iter_items item with
  | Ok [k; v] => Ok (k, v)
  | Ok _ => Raise ValueError
  | Raise e => Raise e
  end.

(** [dict.__init__] filling [d] from a generator over the pairs [src]: the
    generator computes its next item ([None]: the pair is filtered out) when
    the constructor asks for it, and the item is stored before the next one
    is computed. *)
Fixpoint dict_fill (gen : pyval -> pyval -> res (option pyval))
    (src d : list (pyval * pyval)) : res (list (pyval * pyval)) :=
  match src with
  | [] => Ok d
  | (x, y) :: src' =>
      o ← gen x y;
      match o with
      | None => dict_fill gen src' d
      | Some item =>
          '(k, v) ← unpack_pair item;
          if hashable k then dict_fill gen src' (dict_setitem k v d)
          else Raise TypeError
      end
  end.

(** [f(x, y) for x, y in self.items()] *)
Definition gen2_map (f : bound2) (x y : pyval) : res (option pyval) :=
  item ← f x y; Ok (Some item).

(** [(x, y) for x, y in self.items() if f(x, y)], and with [if not]. *)
Definition gen2_filter (test : pyval -> bool) (f : bound2) (x y : pyval)
    : res (option pyval) :=
  v ← f x y; Ok (if test v then Some (PTuple [x; y]) else None).

(** [Dict(items)]: [__init__] clears the flag and fills the dict. *)
Definition Dict_new (gen : pyval -> pyval -> res (option pyval))
    (src : list (pyval * pyval)) (h : heap) : res (loc * heap) :=
  kv ← dict_fill gen src []; Ok (alloc (ODict kv false) h).

(** [Dict(self)]: a copy of the pairs, listed here as the receiver lists
    them; the program may list the pairs of the copy in another order. *)
Definition Dict_copy (self : loc) (h : heap) : loc * heap :=
  alloc (ODict (dict_items h self) false) h.

(** [_moka_assign]: with the flag set, [pass] (the generator is never run
    and the method returns [None]); otherwise [return Dict(items)]. *)
Definition Dict__moka_assign (self : loc)
    (gen : pyval -> pyval -> res (option pyval))
    (src : list (pyval * pyval)) (h : heap) : res (option loc * heap) :=
  if dict_save h self then Ok (None, h)
  else '(r, h') ← Dict_new gen src h; Ok (Some r, h').

Fixpoint loop2_all (f : bound2) (kv : list (pyval * pyval)) : res bool :=
  match kv with
  | [] => Ok true
  | (x, y) :: kv' => v ← f x y; if truthy v then loop2_all f kv' else Ok false
  end.

Fixpoint loop2_some (f : bound2) (kv : list (pyval * pyval)) : res bool :=
  match kv with
  | [] => Ok false
  | (x, y) :: kv' => v ← f x y; if truthy v then Ok true else loop2_some f kv'
  end.

(** [len(r)] of what [keep] or [rem] returned. *)
Definition len_result (r : option loc * heap) : res nat :=
  match r.1 with
  | Some d => Ok (length (dict_items r.2 d))
  | None => Raise TypeError
  end.

Section DictClass.

(** [getattr(op, k)] on the module [operator], as a function of two
    arguments; [None] when the module has no such attribute. *)
Variable op_getattr : string -> option (pyval -> pyval -> res pyval).

(** [Dict._f(self, *args, **kwargs)]: with keywords, the first of them names
    the operator and gives the operand; without, [args.pop(0)] is the
    callable, and the closure [tmp] calls it with the keywords, of which
    there are none on this path. *)
Definition Dict__f (args : posargs) (kw : kwargs) : res bound2 :=
  match kw with
  | (k, v) :: _ =>
      match op_getattr k with
      | Some fn => Ok (fun _ y => fn y v)
      | None => Raise AttributeError
      end
  | [] =>
      match args with
      | NoArgs => Raise IndexError
      | Args f rest => Ok (tmp2 f [] (PNone :: PNone :: rest))
      end
  end.

Definition Dict_map (args : posargs) (kw : kwargs) (self : loc) (h : heap)
    : res (option loc * heap) :=
  f ← Dict__f args kw;
  Dict__moka_assign self (gen2_map f) (dict_items h self) h.

Definition Dict_keep (args : posargs) (kw : kwargs) (self : loc) (h : heap)
    : res (option loc * heap) :=
  f ← Dict__f args kw;
  Dict__moka_assign self (gen2_filter truthy f) (dict_items h self) h.

Definition Dict_rem (args : posargs) (kw : kwargs) (self : loc) (h : heap)
    : res (option loc * heap) :=
  f ← Dict__f args kw;
  Dict__moka_assign self (gen2_filter falsy f) (dict_items h self) h.

Definition Dict_all (args : posargs) (kw : kwargs) (self : loc) (h : heap)
    : res bool :=
  f ← Dict__f args kw; loop2_all f (dict_items h self).

Definition Dict_some (args : posargs) (kw : kwargs) (self : loc) (h : heap)
    : res bool :=
  f ← Dict__f args kw; loop2_some f (dict_items h self).

Definition Dict_count (args : posargs) (kw : kwargs) (self : loc) (h : heap)
    : res (nat * heap) :=
  match args, kw with
  | NoArgs, [] => Ok (length (dict_items h self), h)
  | _, _ =>
      let '(c, h1) := Dict_copy self h in
      r ← Dict_keep args kw c h1;
      n ← len_result r; Ok (n, r.2)
  end.

Definition Dict_empty (args : posargs) (kw : kwargs) (self : loc) (h : heap)
    : res (bool * heap) :=
  match args, kw with
  | NoArgs, [] => Ok (Nat.eqb (length (dict_items h self)) 0, h)
  | _, _ =>
      let '(c, h1) := Dict_copy self h in
      r ← Dict_rem args kw c h1;
      n ← len_result r; Ok (Nat.eqb n 0, r.2)
  end.

End DictClass.

(** [lambda a, b: test(cmp(a, b))] *)
Definition cmp_fn (test : comparison -> bool) (a b : pyval) : res pyval :=
  Ok (PBool (test (py_cmp a b))).

(** The comparison functions of the module [operator]; its other attributes
    are left out, so that this table also answers [None] for names the
    module has.  The theorems take the lookup as a parameter; the samples
    use this table at the six comparison names and at names the module has
    not. *)
Definition operator_cmp (k : string) : option (pyval -> pyval -> res pyval) :=
  if String.eqb k "eq" then
    Some (cmp_fn (fun c => match c with Eq => true | _ => false end))
  else if String.eqb k "ne" then
    Some (cmp_fn (fun c => match c with Eq => false | _ => true end))
  else if String.eqb k "lt" then
    Some (cmp_fn (fun c => match c with Lt => true | _ => false end))
  else if String.eqb k "le" then
    Some (cmp_fn (fun c => match c with Gt => false | _ => true end))
  else if String.eqb k "gt" then
    Some (cmp_fn (fun c => match c with Gt => true | _ => false end))
  else if String.eqb k "ge" then
    Some (cmp_fn (fun c => match c with Lt => false | _ => true end))
  else None.

(** ** Sample objects *)

Definition ints (l : list Z) : list pyval := PInt <$> l.

Definition h_seq : heap := {[ 1%positive := OList (ints [1; 2; 3; 4; 5]%Z) ]}.

Definition d_abc : list (pyval * pyval) :=
  [(PStr "a", PInt 1); (PStr "b", PInt 2); (PStr "c", PInt 3)].

Definition h_abc : heap := {[ 1%positive := ODict d_abc false ]}.

Definition h_none : heap := {[ 1%positive := OList [PNone] ]}.

Definition h_empty : heap := {[ 1%positive := OList [] ]}.

Definition d_zero_none : list (pyval * pyval) :=
  [(PStr "a", PInt 0); (PStr "b", PNone)].

(** A list at 1 and a dict at 2. *)
Definition h_both : heap :=
  <[2%positive := ODict d_zero_none false]> h_seq.

(** [lambda k, v: v in [0, None]] *)
Definition in_zero_none : callable := fun args _ =>
  match args with
  | [_; v] => Ok (PBool (py_in v [PInt 0; PNone]))
  | _ => Raise TypeError
  end.

(** [v * 2] *)
Definition mul2 (v : pyval) : res pyval :=
  match v with
  | PInt n => Ok (PInt (n * 2))
  | PBool b => Ok (PInt (Z.b2z b * 2))
  | PStr s => Ok (PStr (String.append s s))
  | PList xs => Ok (PList (xs ++ xs))
  | PTuple xs => Ok (PTuple (xs ++ xs))
  | PNone | PBlank => Raise TypeError
  end.

(** [lambda x, y: (x, y * 2)] *)
Definition pair_double : callable := fun args _ =>
  match args with
  | [x; y] => v ← mul2 y; Ok (PTuple [x; v])
  | _ => Raise TypeError
  end.

(** [lambda x: x * 2] *)
Definition double : callable := fun args _ =>
  match args with
  | [x] => mul2 x
  | _ => Raise TypeError
  end.

(** [lambda x: x < 3] *)
Definition lt3 : callable := fun args _ =>
  match args with
  | [x] => Ok (PBool (py_lt x (PInt 3)))
  | _ => Raise TypeError
  end.

(** [op.eq] *)
Definition op_eq : callable := fun args kw =>
  match args, kw with
  | [a; b], [] => Ok (PBool (py_eq a b))
  | _, _ => Raise TypeError
  end.


(** ** The rest of the two classes *)

(** The wrapper as a callable receives it: a list with its elements. *)
Definition List_value (h : heap) (self : loc) : pyval :=
  PList (list_items h self).

(** [do]: [return self._f( *args, **kwargs)(self)] *)
Definition List_do (args : posargs) (kw : kwargs) (self : loc) (h : heap)
    : res pyval :=
  f ← List__f args kw; f (List_value h self).

(** [tee]: the same call, kept in the attribute [last_value] of the
    receiver; [lv] holds that attribute of the instances that have it. *)
Definition List_tee (args : posargs) (kw : kwargs) (self : loc) (h : heap)
    (lv : gmap loc pyval) : res (loc * gmap loc pyval) :=
  f ← List__f args kw;
  v ← f (List_value h self);
  Ok (self, <[self := v]> lv).

(** [list.__getslice__(self, i, j)] with the bounds the interpreter passes:
    a bound below zero counts as zero, one above the length as the length,
    and an upper bound below the lower one as the lower one. *)
Definition list_getslice (i j : Z) (l : list pyval) : list pyval :=
  let n := Z.of_nat (length l) in
  let ilow := if (i <? 0)%Z then 0%Z else if (n <? i)%Z then n else i in
  let ihigh := if (j <? ilow)%Z then ilow else if (n <? j)%Z then n else j in
  take (Z.to_nat (ihigh - ilow)) (drop (Z.to_nat ilow) l).

(** [__getslice__]: [return List(list.__getslice__(self, i, j))] *)
Definition List___getslice__ (i j : Z) (self : loc) (h : heap) : loc * heap :=
  List_new (list_getslice i j (list_items h self)) h.


Definition dict_store (d : list (pyval * pyval)) (e : pyval * pyval)
    : list (pyval * pyval) :=
  dict_setitem e.1 e.2 d.




(** [dict.fromkeys(keys, value)] *)
Fixpoint dict_fromkeys (keys : list pyval) (value : pyval)
    (d : list (pyval * pyval)) : res (list (pyval * pyval)) :=
  match keys with
  | [] => Ok d
  | k :: keys' =>
      if hashable k then dict_fromkeys keys' value (dict_setitem k value d)
      else Raise TypeError
  end.

(** [fromkeys]: [return Dict(dict.fromkeys(keys, value))] *)
Definition Dict_fromkeys (keys : list pyval) (value : pyval) (h : heap)
    : res (loc * heap) :=
  kv ← dict_fromkeys keys value [];
  Ok (alloc (ODict kv false) h).

(** [d[k]] on the pairs of a dict; [None] when the key is missing. *)
Fixpoint dict_getitem (k : pyval) (d : list (pyval * pyval))
    : option pyval :=
  match d with
  | [] => None
  | (k', v) :: d' => if py_eq k' k then Some v else dict_getitem k d'
  end.

(** A value with its booleans read as the integers they equal: two values
    are [==] exactly when this gives the same (lemma [py_eq_norm]). *)
Fixpoint py_norm (v : pyval) : pyval :=
  match v with
  | PBool b => PInt (Z.b2z b)
  | PTuple xs => PTuple (map py_norm xs)
  | PList xs => PList (map py_norm xs)
  | _ => v
  end.

(** More sample objects. *)

(** [lambda *args: args] *)
Definition collect : callable := fun args _ => Ok (PTuple args).

(** A dict with [_moka_save] set, whose values cannot be doubled. *)
Definition h_saved : heap :=
  {[ 1%positive := ODict [(PStr "a", PNone); (PStr "b", PNone)] true ]}.

(** [lambda x, y: (1, y)]: every pair gets the same key. *)
Definition one_key : callable := fun args _ =>
  match args with
  | [_; y] => Ok (PTuple [PInt 1; y])
  | _ => Raise TypeError
  end.


(** A dict whose second value cannot be doubled. *)
Definition h_zero_none : heap := {[ 1%positive := ODict d_zero_none false ]}.

(** [lambda x, y: y * 2] *)
Definition double_value : callable := fun args _ =>
  match args with
  | [_; y] => mul2 y
  | _ => Raise TypeError
  end.

(** A list whose last element cannot be doubled. *)
Definition h_mixed : heap :=
  {[ 1%positive := OList [PInt 0; PInt 1; PNone] ]}.

(** ** Predicates of the statements *)

(** The bound function [p] raises on no element of [l]: it returns [g x]
    on [x]. *)
Definition returns_on (p : bound) (g : pyval -> pyval) (l : list pyval)
    : Prop :=
  Forall (fun x => p x = Ok (g x)) l.

(** The same for the two-argument function of [Dict] on the pairs [kv]. *)
Definition returns_on2 (p : bound2) (g : pyval -> pyval -> pyval)
    (kv : list (pyval * pyval)) : Prop :=
  Forall (fun e => p e.1 e.2 = Ok (g e.1 e.2)) kv.

(** No two keys of the pairs are equal. *)
Fixpoint keys_distinct (kv : list (pyval * pyval)) : Prop :=
  match kv with
  | [] => True
  | e :: kv' =>
      Forall (fun e' => py_eq e.1 e'.1 = false) kv' /\ keys_distinct kv'
  end.

(** What the builtin dict guarantees of its pairs: hashable keys, each
    once. *)
Definition dict_wf (kv : list (pyval * pyval)) : Prop :=
  Forall (fun e => hashable e.1 = true) kv /\ keys_distinct kv.

(** [l] is [k] and [r] shuffled together, each in its own order. *)
Inductive interleave {A : Type} : list A -> list A -> list A -> Prop :=
  | interleave_nil : interleave [] [] []
  | interleave_l x k r l : interleave k r l -> interleave (x :: k) r (x :: l)
  | interleave_r x k r l : interleave k r l -> interleave k (x :: r) (x :: l).

(** * Properties *)

(** ** The heap *)

Lemma alloc_fresh (o : obj) (h : heap) :
  h !! (alloc o h).1 = None /\ (alloc o h).2 = <[(alloc o h).1 := o]> h.
Proof.
  unfold alloc; simpl. split; [|done].
  apply not_elem_of_dom, is_fresh.
Qed.

Lemma list_items_lookup (h : heap) (s : loc) (l : list pyval) :
  h !! s = Some (OList l) -> list_items h s = l.
Proof. unfold list_items. by intros ->. Qed.

Lemma list_items_insert (h : heap) (s : loc) (l : list pyval) :
  list_items (<[s := OList l]> h) s = l.
Proof. unfold list_items. by rewrite lookup_insert_eq. Qed.

Lemma dict_items_lookup (h : heap) (d : loc) kv (b : bool) :
  h !! d = Some (ODict kv b) -> dict_items h d = kv /\ dict_save h d = b.
Proof. unfold dict_items, dict_save. by intros ->. Qed.

Lemma dict_items_insert (h : heap) (d : loc) kv (b : bool) :
  dict_items (<[d := ODict kv b]> h) d = kv.
Proof. unfold dict_items. by rewrite lookup_insert_eq. Qed.

(** ** The placeholder *)

Lemma py_eq_Blank (a : pyval) : py_eq a PBlank = true <-> a = PBlank.
Proof. destruct a as [| [] | | | | |]; by cbn. Qed.

Lemma py_in_index (x : pyval) (xs : list pyval) :
  py_in x xs = true -> exists pos, py_index x xs = Some pos.
Proof.
  unfold py_in. induction xs as [|a xs IH]; simpl; [done|].
  destruct (py_eq a x); simpl; [eauto|].
  intros [pos ->]%IH. eauto.
Qed.

(** The captured list keeps the shape of the one bound, whatever the calls
    made so far left in the open slot. *)
Lemma tmp_calls_from (f : callable) (pos : nat) (kw : kwargs)
    (xs args : list pyval) (y : pyval) :
  tmp_calls f pos kw xs (<[pos := y]> args) = tmp f pos kw args <$> xs.
Proof.
  revert y. induction xs as [|x xs IH]; intros y; simpl; [done|].
  rewrite list_insert_insert_eq. f_equal. apply IH.
Qed.

Lemma tmp_calls_tmp (f : callable) (pos : nat) (kw : kwargs)
    (xs args : list pyval) :
  tmp_calls f pos kw xs args = tmp f pos kw args <$> xs.
Proof.
  destruct xs as [|x xs]; simpl; [done|].
  f_equal. apply tmp_calls_from.
Qed.

(** C3: bound with the positional arguments [(A, Blank, C)], where [A] is a
    fixed argument and not the placeholder, the function [List._f] returns
    calls [f(A, x, C)] on the element [x]: the element takes the
    placeholder's place and is not passed first as well.  This holds for each
    call of the closure, which writes the element into the list it shares
    between its calls, and with any keywords passed on to [f] (none of them
    named [f], which would be the callable a second time). *)
Theorem List__f_placeholder (f : callable) (A C : pyval) (kw : kwargs) :
  A <> PBlank ->
  kw_lookup "f" kw = None ->
  exists b : bound,
    List__f (Args f [A; PBlank; C]) kw = Ok b /\
    (forall x, b x = f [A; x; C] kw) /\
    (forall xs, tmp_calls f 1 kw xs [A; PBlank; C]
                = (fun x => f [A; x; C] kw) <$> xs).
Proof.
  intros HA Hkw.
  assert (py_eq A PBlank = false) as HAb.
  { destruct (py_eq A PBlank) eqn:E; [|done]. by apply py_eq_Blank in E. }
  exists (tmp f 1 kw [A; PBlank; C]). split; [|split].
  - unfold List__f, List__f_body, py_in, index_Blank. rewrite Hkw. simpl.
    by rewrite HAb.
  - done.
  - intros xs. by rewrite tmp_calls_tmp.
Qed.

Lemma List__f_placeholder_witness :
  exists b : bound,
    List__f (Args op_eq [PInt 7; PBlank; PNone]) [] = Ok b /\
    (forall x, b x = op_eq [PInt 7; x; PNone] []) /\
    (forall xs, tmp_calls op_eq 1 [] xs [PInt 7; PBlank; PNone]
                = (fun x => op_eq [PInt 7; x; PNone] []) <$> xs).
Proof.
  apply (List__f_placeholder op_eq (PInt 7) PNone []);
    [discriminate | reflexivity].
Defined.

(** ** The loops of [List], for a bound function that raises on no element *)

Section ListLoops.

Variables (p : bound) (g : pyval -> pyval).

Lemma gen_map_returns (l : list pyval) :
  returns_on p g l -> gen_map p l = Ok (g <$> l).
Proof.
  induction 1 as [|x l Hx _ IH]; simpl; [done|].
  by rewrite Hx, IH.
Qed.

Lemma gen_filter_returns (test : pyval -> bool) (l : list pyval) :
  returns_on p g l ->
  gen_filter test p l = Ok (List.filter (fun x => test (g x)) l).
Proof.
  induction 1 as [|x l Hx _ IH]; simpl; [done|].
  by rewrite Hx, IH.
Qed.

Lemma loop_all_returns (l : list pyval) :
  returns_on p g l -> loop_all p l = Ok (forallb (fun x => truthy (g x)) l).
Proof.
  induction 1 as [|x l Hx _ IH]; simpl; [done|].
  rewrite Hx. cbn. by destruct (truthy (g x)).
Qed.

Lemma loop_some_returns (l : list pyval) :
  returns_on p g l -> loop_some p l = Ok (existsb (fun x => truthy (g x)) l).
Proof.
  induction 1 as [|x l Hx _ IH]; simpl; [done|].
  rewrite Hx. cbn. by destruct (truthy (g x)).
Qed.

Lemma loop_find_returns (l : list pyval) :
  returns_on p g l ->
  loop_find p l
  = Ok (default PNone (List.find (fun x => truthy (g x)) l)).
Proof.
  induction 1 as [|x l Hx _ IH]; simpl; [done|].
  rewrite Hx. cbn. by destruct (truthy (g x)).
Qed.

End ListLoops.

Lemma filter_interleave {A : Type} (t : A -> bool) (l : list A) :
  interleave (List.filter t l) (List.filter (fun x => negb (t x)) l) l.
Proof.
  induction l as [|x l IH]; simpl; [constructor|].
  destruct (t x); simpl; by constructor.
Qed.

Lemma filter_length_split {A : Type} (t : A -> bool) (l : list A) :
  length (List.filter t l) + length (List.filter (fun x => negb (t x)) l)
  = length l.
Proof.
  induction l as [|x l IH]; simpl; [done|].
  destruct (t x); simpl; lia.
Qed.

Lemma List__f_Ok_args (args : posargs) (kw : kwargs) (p : bound) :
  List__f args kw = Ok p -> (args, kw) <> (NoArgs, []).
Proof. by intros Hp [= -> ->]. Qed.

(** ** [List]: transforms *)

(** C1, as the code has it: [map], [keep] and [rem] assign their result to
    the receiver's own slice and return the receiver; no wrapper is created.
    When the bound function raises on no element, the receiver afterwards
    holds the images of its elements ([map], same length), the elements whose
    image is truthy ([keep]) or those whose image is falsy ([rem]), and every
    other object is as before. *)
Theorem List_transforms_assign_in_place
    (args : posargs) (kw : kwargs) (s : loc) (h : heap)
    (l : list pyval) (p : bound) (g : pyval -> pyval) :
  h !! s = Some (OList l) ->
  List__f args kw = Ok p ->
  returns_on p g l ->
  List_map args kw s h = Ok (s, <[s := OList (g <$> l)]> h) /\
  length (g <$> l) = length l /\
  List_keep args kw s h
    = Ok (s, <[s := OList (List.filter (fun x => truthy (g x)) l)]> h) /\
  List_rem args kw s h
    = Ok (s, <[s := OList (List.filter (fun x => falsy (g x)) l)]> h) /\
  (forall (o : obj) (r : loc), r <> s ->
     <[s := o]> h !! r = h !! r).
Proof.
  intros Hs Hp Hg.
  unfold List_map, List_keep, List_rem, List__moka_assign.
  rewrite Hp, (list_items_lookup _ _ _ Hs). cbn.
  rewrite (gen_map_returns _ _ _ Hg), !(gen_filter_returns _ _ _ _ Hg). cbn.
  repeat split; try done.
  - apply length_fmap.
  - intros o r Hr. by apply lookup_insert_ne.
Qed.

Lemma double_returns_on_ints (l : list Z) :
  forall p, List__f (Args double []) [] = Ok p ->
  returns_on p (fun v => match v with PInt n => PInt (n * 2) | _ => v end)
    (ints l).
Proof.
  intros p [= <-]. induction l; constructor; done.
Qed.

Lemma List_transforms_assign_in_place_witness :
  List_map (Args double []) [] 1%positive h_seq
  = Ok (1%positive, <[1%positive := OList (ints [2; 4; 6; 8; 10]%Z)]> h_seq).
Proof.
  pose proof (List_transforms_assign_in_place (Args double []) []
                1%positive h_seq (ints [1; 2; 3; 4; 5]%Z) _ _
                eq_refl eq_refl
                (double_returns_on_ints [1; 2; 3; 4; 5]%Z _ eq_refl)) as H.
  exact (proj1 H).
Defined.

(** C1, as stated, fails: [List(range(1, 6)).map(lambda x: x * 2)] returns
    the receiver, whose elements are now the doubles. *)
Lemma List_map_not_pure :
  exists h' : heap,
    List_map (Args double []) [] 1%positive h_seq = Ok (1%positive, h') /\
    list_items h' 1%positive = ints [2; 4; 6; 8; 10]%Z /\
    list_items h' 1%positive <> list_items h_seq 1%positive.
Proof.
  eexists. split; [reflexivity|]. split; [reflexivity|]. discriminate.
Qed.

(** ** [List]: the proxies of the builtin mutators *)

Lemma List__proxy_copy (prim : list pyval -> res (list pyval))
    (s : loc) (h : heap) (l l' : list pyval) :
  h !! s = Some (OList l) ->
  prim l = Ok l' ->
  exists inst : loc,
    List__proxy prim s h = Ok (inst, <[inst := OList l']> h) /\
    h !! inst = None /\ inst <> s.
Proof.
  intros Hs Hprim. unfold List__proxy, List_new.
  destruct (alloc_fresh (OList (list_items h s)) h) as [Hfresh Hheap].
  destruct (alloc (OList (list_items h s)) h) as [inst h1] eqn:Ha.
  simpl in Hfresh, Hheap. subst h1.
  exists inst. rewrite list_items_insert, (list_items_lookup _ _ _ Hs), Hprim.
  cbn. rewrite insert_insert_eq. repeat split; [done|].
  intros ->. congruence.
Qed.

(** C2, as the code has it: the wrapper installed for [append], [extend],
    [insert], [sort] and [reverse] copies the receiver into a new [List],
    applies the builtin method to the copy and returns the copy.  The
    receiver keeps its elements; after [append] it is the returned copy that
    has one element more. *)
Theorem List__proxy_returns_mutated_copy
    (prim : list pyval -> res (list pyval)) (x : pyval)
    (s : loc) (h : heap) (l l' : list pyval) :
  h !! s = Some (OList l) ->
  prim l = Ok l' ->
  (exists inst : loc,
     List__proxy prim s h = Ok (inst, <[inst := OList l']> h) /\
     h !! inst = None /\ inst <> s /\
     <[inst := OList l']> h !! s = Some (OList l)) /\
  (exists (inst : loc) (h' : heap),
     List_append x s h = Ok (inst, h') /\
     inst <> s /\
     list_items h' inst = l ++ [x] /\
     length (list_items h' inst) = S (length l) /\
     list_items h' s = l).
Proof.
  intros Hs Hprim. split.
  - destruct (List__proxy_copy prim s h l l' Hs Hprim) as (inst & H1 & H2 & H3).
    exists inst. repeat split; try done. by rewrite lookup_insert_ne.
  - destruct (List__proxy_copy (list_append x) s h l (l ++ [x]) Hs eq_refl)
      as (inst & H1 & H2 & H3).
    exists inst, (<[inst := OList (l ++ [x])]> h).
    rewrite list_items_insert. repeat split; try done.
    + rewrite length_app. simpl. lia.
    + unfold list_items. by rewrite lookup_insert_ne, Hs.
Qed.

Lemma List__proxy_returns_mutated_copy_witness :
  exists (inst : loc) (h' : heap),
    List_append (PInt 6) 1%positive h_seq = Ok (inst, h') /\
    inst <> 1%positive /\
    list_items h' inst = ints [1; 2; 3; 4; 5]%Z ++ [PInt 6] /\
    length (list_items h' inst) = 6 /\
    list_items h' 1%positive = ints [1; 2; 3; 4; 5]%Z.
Proof.
  exact (proj2 (List__proxy_returns_mutated_copy list_reverse (PInt 6)
                  1%positive h_seq (ints [1; 2; 3; 4; 5]%Z)
                  (ints [5; 4; 3; 2; 1]%Z) eq_refl eq_refl)).
Defined.

(** C2, as stated, fails: [List(range(1, 6)).append(6)] is another object
    than the receiver, and the receiver still has five elements. *)
Lemma List_append_not_in_place :
  exists h' : heap,
    List_append (PInt 6) 1%positive h_seq = Ok (2%positive, h') /\
    2%positive <> 1%positive /\
    list_items h' 2%positive = ints [1; 2; 3; 4; 5; 6]%Z /\
    list_items h' 1%positive = list_items h_seq 1%positive /\
    length (list_items h' 1%positive) = 5.
Proof.
  eexists. split; [vm_compute; reflexivity|].
  split; [discriminate|]. by vm_compute.
Qed.

(** ** [List]: [keep] and [rem] together *)

Lemma List_filters_return
    (args : posargs) (kw : kwargs) (s : loc) (h : heap)
    (l : list pyval) (p : bound) (g : pyval -> pyval) :
  h !! s = Some (OList l) ->
  List__f args kw = Ok p ->
  returns_on p g l ->
  List_keep args kw s h
    = Ok (s, <[s := OList (List.filter (fun x => truthy (g x)) l)]> h) /\
  List_rem args kw s h
    = Ok (s, <[s := OList (List.filter (fun x => falsy (g x)) l)]> h).
Proof.
  intros Hs Hp Hg. unfold List_keep, List_rem, List__moka_assign.
  rewrite Hp, (list_items_lookup _ _ _ Hs). cbn.
  by rewrite !(gen_filter_returns _ _ _ _ Hg).
Qed.

(** C5, as the code has it: from one and the same state of [s] (as on two
    clones of it), [keep] leaves the elements the predicate accepts and [rem]
    those it rejects; their lengths add up to the length of [s], and [s] is
    the two results shuffled together with the order of each kept, so that no
    element is lost or repeated. *)
Theorem List_keep_rem_partition
    (args : posargs) (kw : kwargs) (s : loc) (h : heap)
    (l : list pyval) (p : bound) (g : pyval -> pyval) :
  h !! s = Some (OList l) ->
  List__f args kw = Ok p ->
  returns_on p g l ->
  exists hk hr : heap,
    List_keep args kw s h = Ok (s, hk) /\
    List_rem args kw s h = Ok (s, hr) /\
    length (list_items hk s) + length (list_items hr s) = length l /\
    interleave (list_items hk s) (list_items hr s) l /\
    Forall (fun x => truthy (g x) = true) (list_items hk s) /\
    Forall (fun x => truthy (g x) = false) (list_items hr s).
Proof.
  intros Hs Hp Hg.
  destruct (List_filters_return args kw s h l p g Hs Hp Hg)
    as (Hk & Hr).
  eexists _, _. split; [exact Hk|]. split; [exact Hr|].
  rewrite !list_items_insert. unfold falsy.
  split; [apply filter_length_split|].
  split; [apply filter_interleave|].
  split; apply List.Forall_forall; intros x [_ Hx]%List.filter_In;
    [done | by apply negb_true_iff].
Qed.

Lemma lt3_returns_on (l : list pyval) :
  forall p, List__f (Args lt3 []) [] = Ok p ->
  returns_on p (fun v => PBool (py_lt v (PInt 3))) l.
Proof. intros p [= <-]. induction l; constructor; done. Qed.

Lemma List_keep_rem_partition_witness :
  exists hk hr : heap,
    List_keep (Args lt3 []) [] 1%positive h_seq = Ok (1%positive, hk) /\
    List_rem (Args lt3 []) [] 1%positive h_seq = Ok (1%positive, hr) /\
    length (list_items hk 1%positive) + length (list_items hr 1%positive)
    = 5 /\
    interleave (list_items hk 1%positive) (list_items hr 1%positive)
      (ints [1; 2; 3; 4; 5]%Z) /\
    Forall (fun x => py_lt x (PInt 3) = true) (list_items hk 1%positive) /\
    Forall (fun x => py_lt x (PInt 3) = false) (list_items hr 1%positive).
Proof.
  exact (List_keep_rem_partition (Args lt3 []) [] 1%positive h_seq
           (ints [1; 2; 3; 4; 5]%Z) _ _ eq_refl eq_refl
           (lt3_returns_on _ _ eq_refl)).
Defined.

(** C5, as stated, fails on one receiver: after [s.keep(p)] the list [s]
    holds the kept elements only, so [s.rem(p)] empties it;
    with [s = List(range(1, 6))] and [p = lambda x: x < 3] the two lengths
    are 2 and 0, and [s] had 5 elements. *)
Lemma List_keep_then_rem_one_receiver :
  exists h1 h2 : heap,
    List_keep (Args lt3 []) [] 1%positive h_seq = Ok (1%positive, h1) /\
    List_rem (Args lt3 []) [] 1%positive h1 = Ok (1%positive, h2) /\
    list_items h1 1%positive = ints [1; 2]%Z /\
    list_items h2 1%positive = [] /\
    length (list_items h1 1%positive) + length (list_items h2 1%positive)
    <> length (list_items h_seq 1%positive) /\
    length (list_items h1 1%positive) + length (list_items h2 1%positive)
    <> length (list_items h2 1%positive).
Proof.
  eexists _, _. split; [vm_compute; reflexivity|].
  split; [vm_compute; reflexivity|].
  repeat split; by vm_compute.
Qed.

(** ** [List]: [find] and [some] *)

Lemma find_exists_first {A : Type} (t : A -> bool) (d : A) (l : list A) :
  (existsb t l = true ->
     exists l1 l2, l = l1 ++ default d (List.find t l) :: l2 /\
       t (default d (List.find t l)) = true /\
       Forall (fun y => t y = false) l1) /\
  (existsb t l = false ->
     default d (List.find t l) = d /\ Forall (fun y => t y = false) l).
Proof.
  induction l as [|x l [IHt IHf]]; simpl.
  - split; [done|]. by split.
  - destruct (t x) eqn:Hx; simpl.
    + split; [|done]. intros _. exists [], l. by repeat split.
    + split.
      * intros (l1 & l2 & Hl & Hv & Hl1)%IHt.
        exists (x :: l1), l2. rewrite Hl at 1. repeat split; try done.
        by constructor.
      * intros [Hd Hl]%IHf. split; [done|]. by constructor.
Qed.

(** C6, as the code has it: [find] returns the first element, in the
    list's order, whose image is truthy, and [None] when there is none;
    [some] tells whether there is one.  [None] is also what [find] returns
    when the first such element is [None] itself; where [None] is no element
    of the list or does not satisfy the predicate, [some] is true exactly
    when [find] does not return [None]. *)
Theorem List_find_some
    (args : posargs) (kw : kwargs) (s : loc) (h : heap)
    (l : list pyval) (p : bound) (g : pyval -> pyval) :
  h !! s = Some (OList l) ->
  List__f args kw = Ok p ->
  returns_on p g l ->
  exists (v : pyval) (b : bool),
    List_find args kw s h = Ok v /\
    List_some args kw s h = Ok b /\
    (b = true ->
       exists l1 l2, l = l1 ++ v :: l2 /\ truthy (g v) = true /\
         Forall (fun y => truthy (g y) = false) l1) /\
    (b = false -> v = PNone /\ Forall (fun y => truthy (g y) = false) l) /\
    ((In PNone l -> truthy (g PNone) = false) ->
       (b = true <-> v <> PNone)).
Proof.
  intros Hs Hp Hg. unfold List_find, List_some.
  rewrite Hp, (list_items_lookup _ _ _ Hs). cbn.
  rewrite (loop_find_returns _ _ _ Hg), (loop_some_returns _ _ _ Hg).
  destruct (find_exists_first (fun x => truthy (g x)) PNone l) as [Ht Hf].
  eexists _, _. split; [done|]. split; [done|].
  split; [exact Ht|]. split; [exact Hf|].
  intros Hnone. split.
  - intros (l1 & l2 & Hl & Hv & _)%Ht Hv'. rewrite Hv' in Hl, Hv.
    rewrite Hnone in Hv; [done|]. rewrite Hl. apply in_elt.
  - intros Hv. destruct (existsb _ l); [done|].
    by destruct Hf as [? _].
Qed.

Lemma List_find_some_witness :
  exists (v : pyval) (b : bool),
    List_find (Args op_eq [PInt 3]) [] 1%positive h_seq = Ok v /\
    List_some (Args op_eq [PInt 3]) [] 1%positive h_seq = Ok b /\
    (b = true ->
       exists l1 l2, ints [1; 2; 3; 4; 5]%Z = l1 ++ v :: l2 /\
         py_eq v (PInt 3) = true /\
         Forall (fun y => py_eq y (PInt 3) = false) l1) /\
    (b = false ->
       v = PNone /\
       Forall (fun y => py_eq y (PInt 3) = false) (ints [1; 2; 3; 4; 5]%Z)) /\
    ((In PNone (ints [1; 2; 3; 4; 5]%Z) -> py_eq PNone (PInt 3) = false) ->
       (b = true <-> v <> PNone)).
Proof.
  apply (List_find_some (Args op_eq [PInt 3]) [] 1%positive h_seq
           (ints [1; 2; 3; 4; 5]%Z) _ (fun v => PBool (py_eq v (PInt 3)))
           eq_refl eq_refl).
  repeat constructor.
Defined.

(** C6, as stated, fails: on [List([None])], [some(op.eq, None)] is true
    and [find(op.eq, None)] returns the element [None], which is also what
    [find] returns on the empty list. *)
Lemma List_find_None_ambiguous :
  List_some (Args op_eq [PNone]) [] 1%positive h_none = Ok true /\
  List_find (Args op_eq [PNone]) [] 1%positive h_none = Ok PNone /\
  List_some (Args op_eq [PNone]) [] 1%positive h_empty = Ok false /\
  List_find (Args op_eq [PNone]) [] 1%positive h_empty = Ok PNone.
Proof. repeat split; by vm_compute. Qed.

(** ** The constructor of [Dict] *)

Lemma dict_setitem_new (k v : pyval) (d : list (pyval * pyval)) :
  Forall (fun e => py_eq e.1 k = false) d ->
  dict_setitem k v d = d ++ [(k, v)].
Proof.
  induction 1 as [|[k' v'] d Hk _ IH]; simpl; [done|].
  simpl in Hk. by rewrite Hk, IH.
Qed.

Lemma dict_fill_filter (test : pyval -> bool) (p : bound2)
    (g : pyval -> pyval -> pyval) (src d : list (pyval * pyval)) :
  returns_on2 p g src ->
  Forall (fun e => hashable e.1 = true) src ->
  keys_distinct src ->
  Forall (fun e => Forall (fun e' => py_eq e'.1 e.1 = false) d) src ->
  dict_fill (gen2_filter test p) src d
  = Ok (d ++ List.filter (fun e => test (g e.1 e.2)) src).
Proof.
  intros Hg. revert d.
  induction Hg as [|[x y] src Hx _ IH]; intros d Hh Hd Hnew.
  - simpl. by rewrite app_nil_r.
  - apply Forall_cons in Hh as [Hhx Hh]. destruct Hd as [Hdx Hd].
    apply Forall_cons in Hnew as [Hnx Hnew]. simpl in Hx, Hhx, Hdx, Hnx.
    assert (gen2_filter test p x y
            = Ok (if test (g x y) then Some (PTuple [x; y]) else None)) as Hgen.
    { unfold gen2_filter. by rewrite Hx. }
    cbn [dict_fill List.filter fst snd]. rewrite Hgen.
    destruct (test (g x y)); cbn [mbind res_bind unpack_pair iter_items].
    + rewrite Hhx, (dict_setitem_new _ _ _ Hnx), IH; try done.
      * by rewrite <- app_assoc.
      * apply Forall_forall. intros e He.
        apply Forall_app. split.
        -- by eapply Forall_forall in Hnew.
        -- constructor; [|done]. simpl. by eapply Forall_forall in Hdx.
    + by apply IH.
Qed.

Lemma dict_fill_filter_wf (test : pyval -> bool) (p : bound2)
    (g : pyval -> pyval -> pyval) (kv : list (pyval * pyval)) :
  returns_on2 p g kv ->
  dict_wf kv ->
  dict_fill (gen2_filter test p) kv []
  = Ok (List.filter (fun e => test (g e.1 e.2)) kv).
Proof.
  intros Hg [Hh Hd]. rewrite (dict_fill_filter test p g kv []); try done.
  apply Forall_forall. intros; constructor.
Qed.

Lemma dict_fill_map (p : bound2) (gk gv : pyval -> pyval -> pyval)
    (src d : list (pyval * pyval)) :
  returns_on2 p (fun x y => PTuple [gk x y; gv x y]) src ->
  Forall (fun e => hashable (gk e.1 e.2) = true) src ->
  dict_fill (gen2_map p) src d
  = Ok (foldl (fun d e => dict_setitem (gk e.1 e.2) (gv e.1 e.2) d) d src).
Proof.
  intros Hg. revert d.
  induction Hg as [|[x y] src Hx _ IH]; intros d Hh; [done|].
  apply Forall_cons in Hh as [Hhx Hh]. simpl in Hx, Hhx.
  assert (gen2_map p x y = Ok (Some (PTuple [gk x y; gv x y]))) as Hgen.
  { unfold gen2_map. by rewrite Hx. }
  cbn [dict_fill foldl fst snd]. rewrite Hgen.
  cbn [mbind res_bind unpack_pair iter_items]. rewrite Hhx. by apply IH.
Qed.


Section DictFacts.

Variable op_getattr : string -> option (pyval -> pyval -> res pyval).

Lemma Dict__f_Ok_args (args : posargs) (kw : kwargs) (p : bound2) :
  Dict__f op_getattr args kw = Ok p -> (args, kw) <> (NoArgs, []).
Proof. by intros Hp [= -> ->]. Qed.

(** [keep] and [rem] with the flag unset: a new [Dict] of the pairs that
    pass. *)
Lemma Dict_filters_return (args : posargs) (kw : kwargs) (d : loc)
    (h : heap) (kv : list (pyval * pyval)) (p : bound2)
    (g : pyval -> pyval -> pyval) :
  h !! d = Some (ODict kv false) ->
  dict_wf kv ->
  Dict__f op_getattr args kw = Ok p ->
  returns_on2 p g kv ->
  let r := fresh (dom h) in
  h !! r = None /\ r <> d /\
  Dict_keep op_getattr args kw d h
  = Ok (Some r,
        <[r := ODict (List.filter (fun e => truthy (g e.1 e.2)) kv) false]> h)
  /\
  Dict_rem op_getattr args kw d h
  = Ok (Some r,
        <[r := ODict (List.filter (fun e => falsy (g e.1 e.2)) kv) false]> h).
Proof.
  intros Hd Hwf Hp Hg r.
  assert (h !! r = None) as Hr by apply not_elem_of_dom, is_fresh.
  split; [done|]. split; [intros Heq; rewrite Heq in Hr; congruence|].
  unfold Dict_keep, Dict_rem, Dict__moka_assign, Dict_new.
  destruct (dict_items_lookup _ _ _ _ Hd) as [-> ->].
  rewrite Hp. cbn.
  by rewrite !(dict_fill_filter_wf _ _ _ _ Hg Hwf).
Qed.

End DictFacts.

(** ** The binders *)

(** The closure of [Dict._f] overwrites the first two slots of its list
    before every use: whatever they hold, the callable receives the key, the
    value and the extra arguments. *)
Lemma tmp2_call_slots (f : callable) (kw : kwargs) (x y a b : pyval)
    (rest : list pyval) :
  tmp2_call f kw x y (a :: b :: rest)
  = (x :: y :: rest, f (x :: y :: rest) kw).
Proof. reflexivity. Qed.

Lemma Dict__f_callable
    (op_getattr : string -> option (pyval -> pyval -> res pyval))
    (f : callable) (rest : list pyval) :
  exists p : bound2,
    Dict__f op_getattr (Args f rest) [] = Ok p /\
    forall x y, p x y = f (x :: y :: rest) [].
Proof. eexists. split; [reflexivity|]. done. Qed.

Lemma List__f_body_Ok (f : callable) (args : list pyval) (kw : kwargs) :
  exists p : bound, List__f_body f args kw = Ok p.
Proof.
  unfold List__f_body.
  destruct (negb (py_in PBlank args)) eqn:Hin.
  - destruct args, kw; eauto.
  - apply negb_false_iff, py_in_index in Hin as [pos Hpos].
    unfold index_Blank. rewrite Hpos. destruct args, kw; cbn; eauto.
Qed.

(** C9, as the code has it: the binders raise Python's own exceptions, not
    one kind of their own.  For keywords that do not take the name of the
    binder's parameter [f], [Dict._f] fails in two cases and no other:
    without keyword and without positional argument there is no callable to
    take ([IndexError] from [args.pop(0)]), and with a keyword that is no
    attribute of the module [operator] the lookup fails ([AttributeError]);
    [List._f] has no keyword form and fails only for want of the callable
    ([TypeError]). *)
Theorem binders_fail_exactly
    (op_getattr : string -> option (pyval -> pyval -> res pyval))
    (args : posargs) (kw : kwargs) :
  kw_lookup "f" kw = None ->
  ((exists e, Dict__f op_getattr args kw = Raise e) <->
     (kw = [] /\ args = NoArgs) \/
     (exists k v kw', kw = (k, v) :: kw' /\ op_getattr k = None)) /\
  (kw = [] /\ args = NoArgs ->
     Dict__f op_getattr args kw = Raise IndexError) /\
  ((exists k v kw', kw = (k, v) :: kw' /\ op_getattr k = None) ->
     Dict__f op_getattr args kw = Raise AttributeError) /\
  ((exists e, List__f args kw = Raise e) <-> args = NoArgs) /\
  (args = NoArgs -> List__f args kw = Raise TypeError).
Proof.
  intros Hf. repeat split.
  - intros [e He]. destruct kw as [|[k v] kw'].
    + left. destruct args; [done|discriminate].
    + right. exists k, v, kw'. split; [done|].
      simpl in He. by destruct (op_getattr k).
  - intros [[-> ->]|(k & v & kw' & -> & Hk)]; simpl; [eauto|].
    rewrite Hk. eauto.
  - by intros [-> ->].
  - intros (k & v & kw' & -> & Hk). simpl. by rewrite Hk.
  - intros [e He]. destruct args as [|f rest]; [done|].
    exfalso. unfold List__f in He. rewrite Hf in He.
    destruct (List__f_body_Ok f rest kw) as [p Hp]. congruence.
  - intros ->. unfold List__f. rewrite Hf. eauto.
  - intros ->. unfold List__f. by rewrite Hf.
Qed.

Lemma binders_fail_exactly_witness :
  Dict__f operator_cmp NoArgs [] = Raise IndexError /\
  Dict__f operator_cmp NoArgs [("equals", PInt 2)] = Raise AttributeError /\
  List__f NoArgs [] = Raise TypeError.
Proof.
  split; [|split].
  - apply (binders_fail_exactly operator_cmp NoArgs [] eq_refl). by split.
  - apply (binders_fail_exactly operator_cmp NoArgs [("equals", PInt 2)]
             eq_refl).
    exists "equals", (PInt 2), []. by split.
  - by apply (binders_fail_exactly operator_cmp NoArgs [] eq_refl).
Defined.

(** C9, as stated, fails: the two failures of [Dict._f] are of different
    kinds, neither of them an argument error of the module's own; and
    [List._f] also fails with a callable in first position when a keyword is
    named [f], while without positional argument the keyword [f] is taken
    for the callable and the binder returns. *)
Lemma binders_fail_otherwise :
  Dict__f operator_cmp NoArgs [] = Raise IndexError /\
  Dict__f operator_cmp NoArgs [("equals", PInt 2)] = Raise AttributeError /\
  List__f (Args double []) [("f", PInt 3)] = Raise TypeError /\
  exists p : bound, List__f NoArgs [("f", PInt 3)] = Ok p.
Proof. repeat split. eexists. reflexivity. Qed.

Lemma Dict_keep_eq_2 :
  exists (r : loc) (h' : heap),
    Dict_keep operator_cmp NoArgs [("eq", PInt 2)] 1%positive h_abc
    = Ok (Some r, h') /\
    dict_items h' r = [(PStr "b", PInt 2)].
Proof. eexists _, _. split; by vm_compute. Qed.

(** C4: a keyword [k] that the module [operator] resolves to [fn], with the
    operand [v], binds the function of a key and a value that returns
    [fn(value, v)] whatever the key; the six comparison names are resolved;
    and
    [Dict({'a': 1, 'b': 2, 'c': 3}).keep(eq=2)] is a dict with the one pair
    [('b', 2)]. *)
Theorem Dict__f_operator_shortcut
    (op_getattr : string -> option (pyval -> pyval -> res pyval))
    (args : posargs) (k : string) (v : pyval) (kw : kwargs)
    (fn : pyval -> pyval -> res pyval) :
  op_getattr k = Some fn ->
  (exists p : bound2,
     Dict__f op_getattr args ((k, v) :: kw) = Ok p /\
     forall key value, p key value = fn value v) /\
  Forall (fun k => is_Some (operator_cmp k))
    ["eq"; "ne"; "lt"; "le"; "gt"; "ge"] /\
  (exists (r : loc) (h' : heap),
     Dict_keep operator_cmp NoArgs [("eq", PInt 2)] 1%positive h_abc
     = Ok (Some r, h') /\
     dict_items h' r = [(PStr "b", PInt 2)]).
Proof.
  intros Hk. split; [|split; [|apply Dict_keep_eq_2]].
  - simpl. rewrite Hk. eauto.
  - repeat constructor; by eexists.
Qed.

Lemma Dict__f_operator_shortcut_witness :
  exists p : bound2,
    Dict__f operator_cmp NoArgs [("eq", PInt 2)] = Ok p /\
    forall key value, p key value = Ok (PBool (py_eq value (PInt 2))).
Proof.
  exact (proj1 (Dict__f_operator_shortcut operator_cmp NoArgs "eq" (PInt 2)
                  [] _ eq_refl)).
Defined.

(** ** [count] and [empty] *)

Section CountEmpty.

Variable op_getattr : string -> option (pyval -> pyval -> res pyval).

Lemma List_count_keep (args : posargs) (kw : kwargs) (s : loc) (h : heap)
    (l : list pyval) (p : bound) (g : pyval -> pyval) :
  h !! s = Some (OList l) ->
  List__f args kw = Ok p ->
  returns_on p g l ->
  exists h1 : heap,
    List_count args kw s h
    = Ok (length (List.filter (fun x => truthy (g x)) l), h1) /\
    h1 !! s = Some (OList l).
Proof.
  intros Hs Hp Hg.
  pose proof (List__f_Ok_args _ _ _ Hp) as Hargs.
  assert (List_count args kw s h
          = let '(c, h1) := List_clone s h in List_keep_then_len args kw c h1)
    as -> by (by destruct args, kw).
  unfold List_clone, List_new, alloc.
  rewrite (list_items_lookup _ _ _ Hs).
  set (c := fresh (dom h)).
  assert (h !! c = None) as Hc by apply not_elem_of_dom, is_fresh.
  assert (c <> s) as Hcs by (intros Heq; rewrite Heq in Hc; congruence).
  destruct (List_filters_return args kw c (<[c := OList l]> h)
              l p g) as [Hk _]; [apply lookup_insert_eq|done|done|].
  eexists. split.
  - unfold List_keep_then_len. rewrite Hk. cbn.
    by rewrite list_items_insert.
  - by rewrite !lookup_insert_ne.
Qed.

Lemma Dict_count_keep (args : posargs) (kw : kwargs) (d : loc) (h : heap)
    (kv : list (pyval * pyval)) (b : bool) (p : bound2)
    (g : pyval -> pyval -> pyval) :
  h !! d = Some (ODict kv b) ->
  dict_wf kv ->
  Dict__f op_getattr args kw = Ok p ->
  returns_on2 p g kv ->
  exists h1 : heap,
    Dict_count op_getattr args kw d h
    = Ok (length (List.filter (fun e => truthy (g e.1 e.2)) kv), h1) /\
    Dict_empty op_getattr args kw d h
    = Ok (Nat.eqb (length (List.filter (fun e => falsy (g e.1 e.2)) kv)) 0,
          <[fresh (dom (<[fresh (dom h) := ODict kv false]> h))
            := ODict (List.filter (fun e => falsy (g e.1 e.2)) kv) false]>
            (<[fresh (dom h) := ODict kv false]> h)) /\
    h1 !! d = Some (ODict kv b).
Proof.
  intros Hd Hwf Hp Hg.
  pose proof (Dict__f_Ok_args _ _ _ _ Hp) as Hargs.
  set (c := fresh (dom h)).
  assert (h !! c = None) as Hc by apply not_elem_of_dom, is_fresh.
  assert (c <> d) as Hcd by (intros Heq; rewrite Heq in Hc; congruence).
  destruct (Dict_filters_return op_getattr args kw c
              (<[c := ODict kv false]> h) kv p g)
    as (Hr & Hrc & Hk & Hrem); [apply lookup_insert_eq|done|done|done|].
  set (r := fresh (dom (<[c := ODict kv false]> h))) in *.
  assert (r <> d) as Hrd.
  { intros Heq. rewrite Heq, lookup_insert_ne in Hr; congruence. }
  assert (Dict_copy d h = (c, <[c := ODict kv false]> h)) as Hcopy.
  { unfold Dict_copy, alloc.
    by destruct (dict_items_lookup _ _ _ _ Hd) as [-> _]. }
  eexists. split; [|split].
  - unfold Dict_count. rewrite Hcopy, Hk.
    unfold len_result. cbn. rewrite dict_items_insert.
    by destruct args, kw.
  - unfold Dict_empty. rewrite Hcopy, Hrem.
    unfold len_result. cbn. rewrite dict_items_insert.
    by destruct args, kw.
  - by rewrite !lookup_insert_ne.
Qed.

End CountEmpty.




Lemma in_zero_none_returns_on (kv : list (pyval * pyval)) :
  forall p, Dict__f operator_cmp (Args in_zero_none []) [] = Ok p ->
  returns_on2 p (fun _ v => PBool (py_in v [PInt 0; PNone])) kv.
Proof. intros p [= <-]. induction kv; constructor; done. Qed.

Lemma d_zero_none_wf : dict_wf d_zero_none.
Proof. split; repeat constructor. Qed.


(** C8: [count()] is the length, and [count(p)] is the length of what
    [keep(p)] leaves, the number of elements satisfying [p]; [count] works on
    a copy, so that the [keep] evaluated after it still finds every
    element.  This holds of every [List], whatever else the heap holds, and
    the same holds of the pairs of every [Dict] (where [keep] returns a
    [Dict] when the flag is unset). *)
Theorem count_is_length_of_keep
    (op_getattr : string -> option (pyval -> pyval -> res pyval)) :
  (forall (s : loc) (h : heap) (l : list pyval),
     h !! s = Some (OList l) ->
     List_count NoArgs [] s h = Ok (length l, h) /\
     (forall args kw p g,
        List__f args kw = Ok p -> returns_on p g l ->
        exists (n : nat) (h1 h2 : heap),
          List_count args kw s h = Ok (n, h1) /\
          List_keep args kw s h1 = Ok (s, h2) /\
          n = length (list_items h2 s) /\
          n = length (List.filter (fun x => truthy (g x)) l))) /\
  (forall (d : loc) (h : heap) (kv : list (pyval * pyval)) (sv : bool),
     h !! d = Some (ODict kv sv) ->
     Dict_count op_getattr NoArgs [] d h = Ok (length kv, h) /\
     (forall args kw p g,
        dict_wf kv ->
        Dict__f op_getattr args kw = Ok p -> returns_on2 p g kv ->
        exists (n : nat) (h1 : heap),
          Dict_count op_getattr args kw d h = Ok (n, h1) /\
          n = length (List.filter (fun e => truthy (g e.1 e.2)) kv) /\
          (sv = false ->
           exists (h2 : heap) (r : loc),
             Dict_keep op_getattr args kw d h1 = Ok (Some r, h2) /\
             n = length (dict_items h2 r)))).
Proof.
  split.
  - intros s h l Hs. split.
    + unfold List_count. by rewrite (list_items_lookup _ _ _ Hs).
    + intros args kw p g Hp Hg.
      destruct (List_count_keep args kw s h l p g Hs Hp Hg)
        as (h1 & Hc & Hs1).
      destruct (List_filters_return args kw s h1 l p g Hs1 Hp Hg) as [Hk _].
      eexists _, _, _. split; [exact Hc|]. split; [exact Hk|].
      by rewrite list_items_insert.
  - intros d h kv sv Hd. split.
    + unfold Dict_count.
      by destruct (dict_items_lookup _ _ _ _ Hd) as [-> _].
    + intros args kw p g Hwf Hp Hg.
      destruct (Dict_count_keep op_getattr args kw d h kv sv p g Hd Hwf Hp Hg)
        as (h1 & Hc & _ & Hd1).
      eexists _, _. split; [exact Hc|]. split; [done|].
      intros ->.
      destruct (Dict_filters_return op_getattr args kw d h1 kv p g Hd1 Hwf
                  Hp Hg) as (_ & _ & Hk & _).
      eexists _, _. split; [exact Hk|]. by rewrite dict_items_insert.
Qed.

Lemma count_is_length_of_keep_witness :
  List_count NoArgs [] 1%positive h_seq = Ok (5, h_seq) /\
  (exists (n : nat) (h1 h2 : heap),
     List_count (Args lt3 []) [] 1%positive h_seq = Ok (n, h1) /\
     List_keep (Args lt3 []) [] 1%positive h1 = Ok (1%positive, h2) /\
     n = length (list_items h2 1%positive) /\
     n = 2) /\
  Dict_count operator_cmp NoArgs [] 1%positive h_zero_none
  = Ok (2, h_zero_none) /\
  (exists (n : nat) (h1 : heap),
     Dict_count operator_cmp (Args in_zero_none []) [] 1%positive h_zero_none
     = Ok (n, h1) /\
     n = 2 /\
     (false = false ->
      exists (h2 : heap) (r : loc),
        Dict_keep operator_cmp (Args in_zero_none []) [] 1%positive h1
        = Ok (Some r, h2) /\
        n = length (dict_items h2 r))).
Proof.
  destruct (count_is_length_of_keep operator_cmp) as [HList HDict].
  destruct (HList 1%positive h_seq (ints [1; 2; 3; 4; 5]%Z) eq_refl)
    as [H0 Hp].
  destruct (HDict 1%positive h_zero_none d_zero_none false eq_refl)
    as [Hd0 Hq].
  split; [exact H0|]. split.
  - exact (Hp (Args lt3 []) [] _ _ eq_refl (lt3_returns_on _ _ eq_refl)).
  - split; [exact Hd0|].
    exact (Hq (Args in_zero_none []) [] _ _ d_zero_none_wf eq_refl
             (in_zero_none_returns_on d_zero_none _ eq_refl)).
Defined.

(** ** [Dict]: transforms *)

(** C10: with [_moka_save] unset (as [__init__] leaves it), [map], [keep] and
    [rem] of a [Dict] return a [Dict] that did not exist before, filled with
    the pairs produced (for [map], a later pair with an equal key replaces
    the value of an earlier one), and leave the receiver as it was; the
    transforms of [List] instead return their receiver, assigned in place. *)
Theorem Dict_transforms_return_new
    (op_getattr : string -> option (pyval -> pyval -> res pyval))
    (args : posargs) (kw : kwargs) (d : loc) (h : heap)
    (kv : list (pyval * pyval)) (p : bound2) :
  h !! d = Some (ODict kv false) ->
  dict_wf kv ->
  Dict__f op_getattr args kw = Ok p ->
  exists r : loc,
    h !! r = None /\ r <> d /\
    (forall o : obj, <[r := o]> h !! d = Some (ODict kv false)) /\
    (forall g, returns_on2 p g kv ->
       Dict_keep op_getattr args kw d h
       = Ok (Some r,
             <[r := ODict (List.filter (fun e => truthy (g e.1 e.2)) kv)
                      false]> h) /\
       Dict_rem op_getattr args kw d h
       = Ok (Some r,
             <[r := ODict (List.filter (fun e => falsy (g e.1 e.2)) kv)
                      false]> h)) /\
    (forall gk gv,
       returns_on2 p (fun x y => PTuple [gk x y; gv x y]) kv ->
       Forall (fun e => hashable (gk e.1 e.2) = true) kv ->
       Dict_map op_getattr args kw d h
       = Ok (Some r,
             <[r := ODict
                      (foldl (fun acc e =>
                                dict_setitem (gk e.1 e.2) (gv e.1 e.2) acc)
                         [] kv)
                      false]> h)) /\
    (forall largs lkw s l q gq,
       h !! s = Some (OList l) -> List__f largs lkw = Ok q ->
       returns_on q gq l ->
       List_map largs lkw s h = Ok (s, <[s := OList (gq <$> l)]> h)).
Proof.
  intros Hd Hwf Hp. exists (fresh (dom h)).
  assert (h !! fresh (dom h) = None) as Hr by apply not_elem_of_dom, is_fresh.
  assert (fresh (dom h) <> d) as Hrd.
  { intros Heq. rewrite Heq in Hr. congruence. }
  split; [done|]. split; [done|]. split; [|split; [|split]].
  - intros o. by rewrite lookup_insert_ne.
  - intros g Hg.
    by destruct (Dict_filters_return op_getattr args kw d h kv p g Hd Hwf Hp Hg)
      as (_ & _ & Hk & Hrem).
  - intros gk gv Hg Hh. unfold Dict_map, Dict__moka_assign, Dict_new.
    destruct (dict_items_lookup _ _ _ _ Hd) as [-> ->].
    rewrite Hp. cbn. by rewrite (dict_fill_map _ _ _ _ _ Hg Hh).
  - intros largs lkw s l q gq Hs Hq Hgq.
    unfold List_map, List__moka_assign.
    rewrite Hq, (list_items_lookup _ _ _ Hs). cbn.
    by rewrite (gen_map_returns _ _ _ Hgq).
Qed.

Lemma d_abc_wf : dict_wf d_abc.
Proof. split; repeat constructor. Qed.

Lemma pair_double_returns_on_abc :
  forall p, Dict__f operator_cmp (Args pair_double []) [] = Ok p ->
  returns_on2 p
    (fun x y => PTuple [x; match y with PInt n => PInt (n * 2) | _ => y end])
    d_abc.
Proof. intros p [= <-]. repeat constructor. Qed.

Lemma Dict_transforms_return_new_witness :
  exists r : loc,
    h_abc !! r = None /\ r <> 1%positive /\
    Dict_map operator_cmp (Args pair_double []) [] 1%positive h_abc
    = Ok (Some r,
          <[r := ODict [(PStr "a", PInt 2); (PStr "b", PInt 4);
                        (PStr "c", PInt 6)] false]> h_abc) /\
    <[r := ODict [(PStr "a", PInt 2); (PStr "b", PInt 4);
                  (PStr "c", PInt 6)] false]> h_abc !! 1%positive
    = Some (ODict d_abc false).
Proof.
  destruct (Dict_transforms_return_new operator_cmp (Args pair_double []) []
              1%positive h_abc d_abc _ eq_refl d_abc_wf eq_refl)
    as (r & Hr & Hrd & Hframe & _ & Hmap & _).
  exists r. split; [exact Hr|]. split; [exact Hrd|].
  split; [|apply Hframe].
  apply (Hmap (fun x _ => x)
           (fun _ y => match y with PInt n => PInt (n * 2) | _ => y end)).
  - exact (pair_double_returns_on_abc _ eq_refl).
  - repeat constructor.
Defined.

(** * Further properties *)

(** ** The binder of [List] *)

Lemma py_index_Blank_app (pre post : list pyval) :
  py_in PBlank pre = false ->
  py_in PBlank (pre ++ PBlank :: post) = true /\
  py_index PBlank (pre ++ PBlank :: post) = Some (length pre).
Proof.
  unfold py_in. induction pre as [|a pre IH]; simpl; [done|].
  intros [Ha Hpre]%orb_false_iff. rewrite Ha. simpl.
  destruct (IH Hpre) as [-> ->]. done.
Qed.

Lemma insert_middle (pre post : list pyval) (x y : pyval) :
  <[length pre := x]> (pre ++ y :: post) = pre ++ x :: post.
Proof. induction pre as [|a pre IH]; simpl; [done|]. by rewrite IH. Qed.

(** X1: wherever the first placeholder stands among the positional
    arguments, the bound function puts the element there and leaves every
    other argument, a later placeholder included, as it was given. *)
Theorem List__f_first_placeholder (f : callable) (pre post : list pyval)
    (kw : kwargs) :
  py_in PBlank pre = false ->
  kw_lookup "f" kw = None ->
  exists b : bound,
    List__f (Args f (pre ++ PBlank :: post)) kw = Ok b /\
    forall x, b x = f (pre ++ x :: post) kw.
Proof.
  intros Hpre Hkw. destruct (py_index_Blank_app pre post Hpre) as [Hin Hidx].
  exists (tmp f (length pre) kw (pre ++ PBlank :: post)). split.
  - unfold List__f, List__f_body, index_Blank. rewrite Hkw, Hin, Hidx. cbn.
    by destruct pre, kw.
  - intros x. unfold tmp, tmp_call. cbn. by rewrite insert_middle.
Qed.

Lemma List__f_first_placeholder_witness :
  exists b : bound,
    List__f (Args collect [PInt 7; PBlank; PBlank]) [] = Ok b /\
    forall x, b x = Ok (PTuple [PInt 7; x; PBlank]).
Proof.
  exact (List__f_first_placeholder collect [PInt 7] [PBlank] []
           eq_refl eq_refl).
Defined.

Lemma List__f_no_placeholder (f : callable) (args : list pyval)
    (kw : kwargs) :
  py_in PBlank args = false ->
  kw_lookup "f" kw = None ->
  List__f (Args f args) kw = Ok (fun x => f (x :: args) kw).
Proof.
  intros Hargs Hkw. unfold List__f, List__f_body. rewrite Hkw, Hargs. cbn.
  by destruct args, kw.
Qed.

(** X2: without a placeholder among the positional arguments, the bound
    function passes the element first, then the positional and keyword
    arguments it was bound with. *)
Theorem List__f_element_first (f : callable) (args : list pyval)
    (kw : kwargs) :
  py_in PBlank args = false ->
  kw_lookup "f" kw = None ->
  exists b : bound,
    List__f (Args f args) kw = Ok b /\
    forall x, b x = f (x :: args) kw.
Proof.
  intros Hargs Hkw. eexists. split.
  - by apply List__f_no_placeholder.
  - done.
Qed.

Lemma List__f_element_first_witness :
  exists b : bound,
    List__f (Args collect [PInt 3; PNone]) [] = Ok b /\
    forall x, b x = Ok (PTuple [x; PInt 3; PNone]).
Proof.
  exact (List__f_element_first collect [PInt 3; PNone] [] eq_refl eq_refl).
Defined.

(** ** [do] and [tee] *)

(** X3: [do] calls the function on the wrapper, followed by the arguments it
    was bound with, and returns what the function returns; [tee] makes the
    same call, keeps the result in [last_value] of the receiver, touches no
    other instance's [last_value] and returns the receiver. *)
Theorem List_do_tee (f : callable) (extra : list pyval) (kw : kwargs)
    (s : loc) (h : heap) (lv : gmap loc pyval) (v : pyval) :
  py_in PBlank extra = false ->
  kw_lookup "f" kw = None ->
  f (List_value h s :: extra) kw = Ok v ->
  List_do (Args f extra) kw s h = Ok v /\
  List_tee (Args f extra) kw s h lv = Ok (s, <[s := v]> lv) /\
  (forall r, r <> s -> <[s := v]> lv !! r = lv !! r).
Proof.
  intros Hextra Hkw Hv.
  unfold List_do, List_tee.
  rewrite (List__f_no_placeholder f extra kw Hextra Hkw). cbn.
  rewrite Hv. cbn.
  repeat split. intros r Hr. by rewrite lookup_insert_ne.
Qed.

Lemma List_do_tee_witness :
  List_do (Args collect [PInt 8]) [] 1%positive h_none
  = Ok (PTuple [PList [PNone]; PInt 8]) /\
  List_tee (Args collect [PInt 8]) [] 1%positive h_none ∅
  = Ok (1%positive, {[ 1%positive := PTuple [PList [PNone]; PInt 8] ]}).
Proof.
  destruct (List_do_tee collect [PInt 8] [] 1%positive h_none ∅
              (PTuple [PList [PNone]; PInt 8]) eq_refl eq_refl eq_refl)
    as (Hdo & Htee & _).
  split; [exact Hdo | exact Htee].
Defined.

(** ** Where the loops of [List] stop *)

Lemma returns_on_app (p : bound) (g : pyval -> pyval) (l1 l2 : list pyval) :
  returns_on p g (l1 ++ l2) <-> returns_on p g l1 /\ returns_on p g l2.
Proof. apply Forall_app. Qed.

Lemma loop_some_skip (p : bound) (g : pyval -> pyval) (l1 l2 : list pyval) :
  returns_on p g l1 ->
  Forall (fun y => truthy (g y) = false) l1 ->
  loop_some p (l1 ++ l2) = loop_some p l2 /\
  loop_find p (l1 ++ l2) = loop_find p l2.
Proof.
  induction 1 as [|y l1 Hy _ IH]; intros Hf; simpl; [done|].
  apply Forall_cons in Hf as [Hfy Hf]. rewrite Hy. cbn. rewrite Hfy.
  by apply IH.
Qed.

Lemma loop_all_skip (p : bound) (g : pyval -> pyval) (l1 l2 : list pyval) :
  returns_on p g l1 ->
  Forall (fun y => truthy (g y) = true) l1 ->
  loop_all p (l1 ++ l2) = loop_all p l2.
Proof.
  induction 1 as [|y l1 Hy _ IH]; intros Hf; simpl; [done|].
  apply Forall_cons in Hf as [Hfy Hf]. rewrite Hy. cbn. rewrite Hfy.
  by apply IH.
Qed.

Lemma gen_raise (p : bound) (g : pyval -> pyval) (l1 l2 : list pyval)
    (x : pyval) (e : exn) :
  returns_on p g l1 ->
  p x = Raise e ->
  gen_map p (l1 ++ x :: l2) = Raise e /\
  forall test, gen_filter test p (l1 ++ x :: l2) = Raise e.
Proof.
  intros Hl1 Hx. induction Hl1 as [|y l1 Hy _ [IHm IHf]]; simpl.
  - by rewrite Hx.
  - rewrite Hy. cbn. rewrite IHm. split; [done|]. intros test.
    by rewrite IHf.
Qed.

(** X4: [some] and [find] stop at the first element the predicate accepts:
    [some] returns [True] and [find] that element without calling the
    predicate on what follows, so that an exception it would raise there is
    never seen. *)
Theorem List_some_find_stop_at_first
    (args : posargs) (kw : kwargs) (s : loc) (h : heap)
    (l1 l2 : list pyval) (x v : pyval) (p : bound) (g : pyval -> pyval) :
  h !! s = Some (OList (l1 ++ x :: l2)) ->
  List__f args kw = Ok p ->
  returns_on p g l1 ->
  Forall (fun y => truthy (g y) = false) l1 ->
  p x = Ok v ->
  truthy v = true ->
  List_some args kw s h = Ok true /\ List_find args kw s h = Ok x.
Proof.
  intros Hs Hp Hl1 Hf Hx Hv. unfold List_some, List_find.
  rewrite Hp, (list_items_lookup _ _ _ Hs). cbn.
  destruct (loop_some_skip p g l1 (x :: l2) Hl1 Hf) as [-> ->].
  simpl. rewrite Hx. cbn. by rewrite Hv.
Qed.

Lemma List_some_find_stop_at_first_witness :
  List_some (Args double []) [] 1%positive h_mixed = Ok true /\
  List_find (Args double []) [] 1%positive h_mixed = Ok (PInt 1) /\
  double [PNone] [] = Raise TypeError.
Proof.
  split; [|split; [|reflexivity]];
    apply (List_some_find_stop_at_first (Args double []) [] 1%positive
             h_mixed [PInt 0] [PNone] (PInt 1) (PInt 2) _
             (fun _ => PInt 0) eq_refl eq_refl);
    by repeat constructor.
Defined.

(** X5: [all], and [empty] with a predicate, stop at the first element the
    predicate rejects and return [False], whatever the predicate would do on
    the elements after it. *)
Theorem List_all_empty_stop_at_first
    (args : posargs) (kw : kwargs) (s : loc) (h : heap)
    (l1 l2 : list pyval) (x v : pyval) (p : bound) (g : pyval -> pyval) :
  h !! s = Some (OList (l1 ++ x :: l2)) ->
  List__f args kw = Ok p ->
  returns_on p g l1 ->
  Forall (fun y => truthy (g y) = true) l1 ->
  p x = Ok v ->
  truthy v = false ->
  List_all args kw s h = Ok false /\ List_empty args kw s h = Ok false.
Proof.
  intros Hs Hp Hl1 Hf Hx Hv.
  pose proof (List__f_Ok_args _ _ _ Hp) as Hargs.
  assert (List_empty args kw s h = List_all args kw s h) as ->
    by (by destruct args, kw).
  cut (List_all args kw s h = Ok false); [by intros ->|].
  unfold List_all. rewrite Hp, (list_items_lookup _ _ _ Hs). cbn.
  rewrite (loop_all_skip p g l1 (x :: l2) Hl1 Hf).
  simpl. rewrite Hx. cbn. by rewrite Hv.
Qed.

Lemma List_all_empty_stop_at_first_witness :
  List_all (Args double []) [] 1%positive h_mixed = Ok false /\
  List_empty (Args double []) [] 1%positive h_mixed = Ok false.
Proof.
  apply (List_all_empty_stop_at_first (Args double []) [] 1%positive
           h_mixed [] [PInt 1; PNone] (PInt 0) (PInt 0) _
           (fun _ => PInt 0) eq_refl eq_refl);
    by repeat constructor.
Defined.

(** X6: [map], [keep], [rem] and [count] with a predicate call the function
    on every element: the first exception it raises is the outcome of the
    method, whatever the elements after it. *)
Theorem List_transforms_raise
    (args : posargs) (kw : kwargs) (s : loc) (h : heap)
    (l1 l2 : list pyval) (x : pyval) (e : exn) (p : bound)
    (g : pyval -> pyval) :
  h !! s = Some (OList (l1 ++ x :: l2)) ->
  List__f args kw = Ok p ->
  returns_on p g l1 ->
  p x = Raise e ->
  List_map args kw s h = Raise e /\
  List_keep args kw s h = Raise e /\
  List_rem args kw s h = Raise e /\
  List_count args kw s h = Raise e.
Proof.
  intros Hs Hp Hl1 Hx.
  destruct (gen_raise p g l1 l2 x e Hl1 Hx) as [Hm Hf].
  pose proof (List__f_Ok_args _ _ _ Hp) as Hargs.
  assert (List_count args kw s h
          = let '(c, h1) := List_clone s h in List_keep_then_len args kw c h1)
    as -> by (by destruct args, kw).
  unfold List_map, List_keep, List_rem, List_clone, List_new, alloc,
    List_keep_then_len, List_keep.
  rewrite Hp, list_items_insert, (list_items_lookup _ _ _ Hs). cbn.
  by rewrite Hm, !Hf.
Qed.

Lemma List_transforms_raise_witness :
  List_map (Args double []) [] 1%positive h_mixed = Raise TypeError /\
  List_keep (Args double []) [] 1%positive h_mixed = Raise TypeError /\
  List_rem (Args double []) [] 1%positive h_mixed = Raise TypeError /\
  List_count (Args double []) [] 1%positive h_mixed = Raise TypeError.
Proof.
  apply (List_transforms_raise (Args double []) [] 1%positive h_mixed
           [PInt 0; PInt 1] [] PNone TypeError _
           (fun v => match v with PInt n => PInt (n * 2) | _ => v end)
           eq_refl eq_refl);
    by repeat constructor.
Defined.

(** ** Queries against [count] *)

Lemma filter_length_le {A : Type} (t : A -> bool) (l : list A) :
  length (List.filter t l) <= length l.
Proof. induction l as [|x l IH]; simpl; [done|]. destruct (t x); simpl; lia. Qed.

Lemma existsb_filter_pos {A : Type} (t : A -> bool) (l : list A) :
  existsb t l = true <-> 0 < length (List.filter t l).
Proof.
  induction l as [|x l IH]; simpl; [split; [done|lia]|].
  destruct (t x); simpl; [split; [lia|done]|done].
Qed.

Lemma forallb_filter_all {A : Type} (t : A -> bool) (l : list A) :
  forallb t l = true <-> length (List.filter t l) = length l.
Proof.
  induction l as [|x l IH]; simpl; [done|].
  pose proof (filter_length_le t l).
  destruct (t x); simpl; [rewrite IH; lia|split; [done|lia]].
Qed.

(** X7: for a predicate that raises on no element, [some(p)] is true exactly
    when [count(p)] is positive, and [all(p)] exactly when [count(p)] is the
    length of the list. *)
Theorem List_some_all_count
    (args : posargs) (kw : kwargs) (s : loc) (h : heap)
    (l : list pyval) (p : bound) (g : pyval -> pyval) :
  h !! s = Some (OList l) ->
  List__f args kw = Ok p ->
  returns_on p g l ->
  exists (b b' : bool) (n : nat) (h1 : heap),
    List_some args kw s h = Ok b /\
    List_all args kw s h = Ok b' /\
    List_count args kw s h = Ok (n, h1) /\
    (b = true <-> 0 < n) /\
    (b' = true <-> n = length l).
Proof.
  intros Hs Hp Hg.
  destruct (List_count_keep args kw s h l p g Hs Hp Hg) as (h1 & Hc & _).
  eexists _, _, _, _. split; [|split; [|split; [exact Hc|]]].
  - unfold List_some. rewrite Hp, (list_items_lookup _ _ _ Hs). cbn.
    apply (loop_some_returns _ _ _ Hg).
  - unfold List_all. rewrite Hp, (list_items_lookup _ _ _ Hs). cbn.
    apply (loop_all_returns _ _ _ Hg).
  - split; [apply existsb_filter_pos | apply forallb_filter_all].
Qed.

Lemma List_some_all_count_witness :
  exists (b b' : bool) (n : nat) (h1 : heap),
    List_some (Args lt3 []) [] 1%positive h_seq = Ok b /\
    List_all (Args lt3 []) [] 1%positive h_seq = Ok b' /\
    List_count (Args lt3 []) [] 1%positive h_seq = Ok (n, h1) /\
    (b = true <-> 0 < n) /\
    (b' = true <-> n = 5).
Proof.
  exact (List_some_all_count (Args lt3 []) [] 1%positive h_seq
           (ints [1; 2; 3; 4; 5]%Z) _ _ eq_refl eq_refl
           (lt3_returns_on _ _ eq_refl)).
Defined.

(** X8: [count] changes no object that exists.  Without arguments it
    returns the length and the heap as it was.  With arguments it returns
    the heap with one new list and nothing else changed: the new list holds
    the elements of the receiver that the bound function accepts, and its
    length is the count. *)
Theorem List_count_frame
    (args : posargs) (kw : kwargs) (s : loc) (h h1 : heap) (n : nat) :
  List_count args kw s h = Ok (n, h1) ->
  ((args, kw) = (NoArgs, []) ->
     h1 = h /\ n = length (list_items h s)) /\
  ((args, kw) <> (NoArgs, []) ->
     exists (c : loc) (items : list pyval) (p : bound),
       h !! c = None /\ h1 = <[c := OList items]> h /\
       n = length items /\
       List__f args kw = Ok p /\
       gen_filter truthy p (list_items h s) = Ok items /\
       (forall r, r <> c -> h1 !! r = h !! r)).
Proof.
  intros Hc. split.
  - intros [= -> ->]. unfold List_count in Hc. by injection Hc as <- <-.
  - intros Hargs.
    assert ((let '(c, h1) := List_clone s h in
             List_keep_then_len args kw c h1) = Ok (n, h1)) as Hk.
    { rewrite <- Hc. unfold List_count. by destruct args, kw. }
    clear Hc. unfold List_clone, List_new, alloc, List_keep_then_len,
      List_keep, List__moka_assign in Hk.
    set (c := fresh (dom h)) in *.
    assert (h !! c = None) as Hfresh by apply not_elem_of_dom, is_fresh.
    destruct (List__f args kw) as [p|]; [|done]. cbn in Hk.
    rewrite list_items_insert in Hk.
    destruct (gen_filter truthy p _) as [items|] eqn:Hitems; [|done].
    cbn in Hk. rewrite list_items_insert, insert_insert_eq in Hk.
    injection Hk as <- <-. exists c, items, p.
    repeat split; try done. intros r Hr. by rewrite lookup_insert_ne.
Qed.

Lemma List_count_frame_witness :
  (h_seq = h_seq /\ 5 = length (list_items h_seq 1%positive)) /\
  exists (c : loc) (items : list pyval) (p : bound),
    h_seq !! c = None /\
    <[2%positive := OList (ints [1; 2]%Z)]> h_seq = <[c := OList items]> h_seq
    /\ 2 = length items /\
    List__f (Args lt3 []) [] = Ok p /\
    gen_filter truthy p (list_items h_seq 1%positive) = Ok items /\
    (forall r, r <> c ->
       <[2%positive := OList (ints [1; 2]%Z)]> h_seq !! r = h_seq !! r).
Proof.
  split.
  - exact (proj1 (List_count_frame NoArgs [] 1%positive h_seq h_seq 5
                    eq_refl) eq_refl).
  - apply (List_count_frame (Args lt3 []) [] 1%positive h_seq
             (<[2%positive := OList (ints [1; 2]%Z)]> h_seq) 2 eq_refl).
    discriminate.
Defined.

(** ** Chains on one [List] *)

Lemma returns_on_filter (p : bound) (g : pyval -> pyval) (t : pyval -> bool)
    (l : list pyval) :
  returns_on p g l -> returns_on p g (List.filter t l).
Proof.
  induction 1 as [|x l Hx _ IH]; simpl; [constructor|].
  destruct (t x); [by constructor|done].
Qed.

Lemma filter_filter_andb {A : Type} (t1 t2 : A -> bool) (l : list A) :
  List.filter t2 (List.filter t1 l)
  = List.filter (fun x => t1 x && t2 x) l.
Proof.
  induction l as [|x l IH]; simpl; [done|].
  destruct (t1 x); simpl; [|done]. by rewrite IH.
Qed.

Lemma filter_none {A : Type} (t : A -> bool) (l : list A) :
  List.filter (fun x => t x && negb (t x)) l = [].
Proof.
  induction l as [|x l IH]; simpl; [done|]. by destruct (t x).
Qed.

(** X9: two [keep] calls in a row on one list leave, in that same list, the
    elements both predicates accept, in their order. *)
Theorem List_keep_keep
    (a1 a2 : posargs) (k1 k2 : kwargs) (s : loc) (h : heap)
    (l : list pyval) (p q : bound) (g gq : pyval -> pyval) :
  h !! s = Some (OList l) ->
  List__f a1 k1 = Ok p -> returns_on p g l ->
  List__f a2 k2 = Ok q -> returns_on q gq l ->
  exists h1 h2 : heap,
    List_keep a1 k1 s h = Ok (s, h1) /\
    List_keep a2 k2 s h1 = Ok (s, h2) /\
    h2 = <[s := OList (List.filter
                         (fun x => truthy (g x) && truthy (gq x)) l)]> h.
Proof.
  intros Hs Hp Hg Hq Hgq.
  destruct (List_filters_return a1 k1 s h l p g Hs Hp Hg) as [Hk1 _].
  destruct (List_filters_return a2 k2 s
              (<[s := OList (List.filter (fun x => truthy (g x)) l)]> h)
              _ q gq (lookup_insert_eq _ _ _) Hq
              (returns_on_filter q gq _ l Hgq)) as [Hk2 _].
  eexists _, _. split; [exact Hk1|]. split; [exact Hk2|].
  by rewrite insert_insert_eq, filter_filter_andb.
Qed.

Lemma List_keep_keep_witness :
  exists h1 h2 : heap,
    List_keep (Args lt3 []) [] 1%positive h_seq = Ok (1%positive, h1) /\
    List_keep (Args op_eq [PInt 2]) [] 1%positive h1 = Ok (1%positive, h2) /\
    h2 = <[1%positive := OList [PInt 2]]> h_seq.
Proof.
  eapply (List_keep_keep (Args lt3 []) (Args op_eq [PInt 2]) [] []
           1%positive h_seq (ints [1; 2; 3; 4; 5]%Z) _ _
           (fun v => PBool (py_lt v (PInt 3)))
           (fun v => PBool (py_eq v (PInt 2))) eq_refl eq_refl);
    [by repeat constructor | reflexivity | by repeat constructor].
Defined.

(** X10: [rem] after [keep] with the same predicate, on the same list,
    empties it: [keep] has left only elements that [rem] removes. *)
Theorem List_keep_then_rem_empties
    (args : posargs) (kw : kwargs) (s : loc) (h : heap)
    (l : list pyval) (p : bound) (g : pyval -> pyval) :
  h !! s = Some (OList l) ->
  List__f args kw = Ok p ->
  returns_on p g l ->
  exists h1 : heap,
    List_keep args kw s h = Ok (s, h1) /\
    List_rem args kw s h1 = Ok (s, <[s := OList []]> h).
Proof.
  intros Hs Hp Hg.
  destruct (List_filters_return args kw s h l p g Hs Hp Hg) as [Hk _].
  destruct (List_filters_return args kw s
              (<[s := OList (List.filter (fun x => truthy (g x)) l)]> h)
              _ p g (lookup_insert_eq _ _ _) Hp
              (returns_on_filter p g _ l Hg)) as [_ Hr].
  eexists. split; [exact Hk|]. rewrite Hr.
  rewrite insert_insert_eq, filter_filter_andb. unfold falsy.
  by rewrite filter_none.
Qed.

Lemma List_keep_then_rem_empties_witness :
  exists h1 : heap,
    List_keep (Args lt3 []) [] 1%positive h_seq = Ok (1%positive, h1) /\
    List_rem (Args lt3 []) [] 1%positive h1
    = Ok (1%positive, <[1%positive := OList []]> h_seq).
Proof.
  exact (List_keep_then_rem_empties (Args lt3 []) [] 1%positive h_seq
           (ints [1; 2; 3; 4; 5]%Z) _ _ eq_refl eq_refl
           (lt3_returns_on _ _ eq_refl)).
Defined.

(** X11: two [map] calls in a row on one list leave in it the images of the
    images: the second call works on what the first has stored. *)
Theorem List_map_map
    (a1 a2 : posargs) (k1 k2 : kwargs) (s : loc) (h : heap)
    (l : list pyval) (p q : bound) (g gq : pyval -> pyval) :
  h !! s = Some (OList l) ->
  List__f a1 k1 = Ok p -> returns_on p g l ->
  List__f a2 k2 = Ok q -> returns_on q gq (g <$> l) ->
  exists h1 : heap,
    List_map a1 k1 s h = Ok (s, h1) /\
    List_map a2 k2 s h1
    = Ok (s, <[s := OList ((fun x => gq (g x)) <$> l)]> h).
Proof.
  intros Hs Hp Hg Hq Hgq. unfold List_map, List__moka_assign.
  rewrite Hp, Hq, (list_items_lookup _ _ _ Hs). cbn.
  rewrite (gen_map_returns _ _ _ Hg). cbn.
  eexists. split; [done|].
  rewrite list_items_insert, (gen_map_returns _ _ _ Hgq). cbn.
  by rewrite insert_insert_eq, <- list_fmap_compose.
Qed.

Lemma List_map_map_witness :
  exists h1 : heap,
    List_map (Args double []) [] 1%positive h_seq = Ok (1%positive, h1) /\
    List_map (Args lt3 []) [] 1%positive h1
    = Ok (1%positive,
          <[1%positive := OList [PBool true; PBool false; PBool false;
                                 PBool false; PBool false]]> h_seq).
Proof.
  eapply (List_map_map (Args double []) (Args lt3 []) [] [] 1%positive h_seq
           (ints [1; 2; 3; 4; 5]%Z) _ _
           (fun v => match v with PInt n => PInt (n * 2) | _ => v end)
           (fun v => PBool (py_lt v (PInt 3))) eq_refl eq_refl);
    [by repeat constructor | reflexivity | by repeat constructor].
Defined.

(** ** Copies of a [List] *)

(** X12: [clone] gives a new list with the same elements, and a transform
    applied to the clone is stored in the clone: the list cloned keeps its
    elements. *)
Theorem List_clone_protects
    (args : posargs) (kw : kwargs) (s : loc) (h : heap)
    (l : list pyval) (p : bound) (g : pyval -> pyval) :
  h !! s = Some (OList l) ->
  List__f args kw = Ok p ->
  returns_on p g l ->
  exists (c : loc) (h1 : heap),
    List_clone s h = (c, h1) /\
    h !! c = None /\ c <> s /\ list_items h1 c = l /\
    List_map args kw c h1 = Ok (c, <[c := OList (g <$> l)]> h) /\
    List_keep args kw c h1
    = Ok (c, <[c := OList (List.filter (fun x => truthy (g x)) l)]> h) /\
    List_rem args kw c h1
    = Ok (c, <[c := OList (List.filter (fun x => falsy (g x)) l)]> h) /\
    (forall o : obj, <[c := o]> h !! s = Some (OList l)).
Proof.
  intros Hs Hp Hg. unfold List_clone, List_new, alloc.
  rewrite (list_items_lookup _ _ _ Hs).
  set (c := fresh (dom h)).
  assert (h !! c = None) as Hc by apply not_elem_of_dom, is_fresh.
  assert (c <> s) as Hcs by (intros Heq; rewrite Heq in Hc; congruence).
  destruct (List_filters_return args kw c (<[c := OList l]> h) l p g)
    as [Hk Hr]; [apply lookup_insert_eq|done|done|].
  exists c, (<[c := OList l]> h). rewrite Hk, Hr, !insert_insert_eq.
  repeat split; try done.
  - apply list_items_insert.
  - unfold List_map, List__moka_assign.
    rewrite Hp, list_items_insert. cbn.
    rewrite (gen_map_returns _ _ _ Hg). cbn. by rewrite insert_insert_eq.
  - intros o. by rewrite lookup_insert_ne.
Qed.

Lemma List_clone_protects_witness :
  exists (c : loc) (h1 : heap),
    List_clone 1%positive h_seq = (c, h1) /\
    h_seq !! c = None /\ c <> 1%positive /\
    list_items h1 c = ints [1; 2; 3; 4; 5]%Z /\
    List_map (Args double []) [] c h1
    = Ok (c, <[c := OList (ints [2; 4; 6; 8; 10]%Z)]> h_seq) /\
    List_keep (Args double []) [] c h1
    = Ok (c, <[c := OList (ints [1; 2; 3; 4; 5]%Z)]> h_seq) /\
    List_rem (Args double []) [] c h1 = Ok (c, <[c := OList []]> h_seq) /\
    (forall o : obj,
       <[c := o]> h_seq !! 1%positive
       = Some (OList (ints [1; 2; 3; 4; 5]%Z))).
Proof.
  exact (List_clone_protects (Args double []) [] 1%positive h_seq
           (ints [1; 2; 3; 4; 5]%Z) _ _ eq_refl eq_refl
           (double_returns_on_ints [1; 2; 3; 4; 5]%Z _ eq_refl)).
Defined.

(** X13: a slice is a new [List] holding a run of consecutive elements of
    the receiver, which is left as it was; no bounds raise.  For every [i]
    and [j] the run starts after the first [min(max(i, 0), len)] elements
    and has [max(0, min(j, len) - min(max(i, 0), len))] elements: a bound
    below zero counts as zero, a bound above the length as the length, an
    upper bound below the lower one gives the empty list.  So with
    [0 <= i <= j <= len] the run starts at [i] and has [j - i] elements, and
    the slice from 0 (or below) to the length (or beyond) holds every
    element. *)
Theorem List_getslice_run (i j : Z) (s : loc) (h : heap) (l : list pyval) :
  h !! s = Some (OList l) ->
  exists (r : loc) (pre items post : list pyval),
    List___getslice__ i j s h = (r, <[r := OList items]> h) /\
    h !! r = None /\ r <> s /\
    (forall o : obj, <[r := o]> h !! s = Some (OList l)) /\
    l = pre ++ items ++ post /\
    Z.of_nat (length pre) = Z.min (Z.max i 0) (Z.of_nat (length l)) /\
    Z.of_nat (length items)
    = Z.max 0 (Z.min j (Z.of_nat (length l))
               - Z.min (Z.max i 0) (Z.of_nat (length l))) /\
    ((0 <= i <= j)%Z /\ (j <= Z.of_nat (length l))%Z ->
       length pre = Z.to_nat i /\ length items = Z.to_nat (j - i)) /\
    ((i <= 0)%Z /\ (Z.of_nat (length l) <= j)%Z -> items = l).
Proof.
  intros Hs. unfold List___getslice__, List_new, alloc.
  rewrite (list_items_lookup _ _ _ Hs).
  set (r := fresh (dom h)).
  assert (h !! r = None) as Hr by apply not_elem_of_dom, is_fresh.
  assert (r <> s) as Hrs by (intros Heq; rewrite Heq in Hr; congruence).
  unfold list_getslice.
  set (n := Z.of_nat (length l)).
  set (ilow := if (i <? 0)%Z then 0%Z else if (n <? i)%Z then n else i).
  set (ihigh := if (j <? ilow)%Z then ilow
                else if (n <? j)%Z then n else j).
  assert (0 <= n)%Z as Hn by (subst n; lia).
  assert (ilow = Z.min (Z.max i 0) n) as Hlow
    by (subst ilow; repeat case_match; lia).
  assert (ihigh - ilow = Z.max 0 (Z.min j n - ilow))%Z as Hhigh
    by (subst ihigh; rewrite Hlow; repeat case_match; lia).
  exists r, (take (Z.to_nat ilow) l),
    (take (Z.to_nat (ihigh - ilow)) (drop (Z.to_nat ilow) l)),
    (drop (Z.to_nat (ihigh - ilow)) (drop (Z.to_nat ilow) l)).
  split; [done|]. split; [done|]. split; [done|].
  split; [intros o; by rewrite lookup_insert_ne|].
  split; [by rewrite !take_drop|].
  split; [rewrite length_take, <- Hlow; subst n; lia|].
  split.
  { rewrite length_take, length_drop, <- Hlow, <- Hhigh. subst n. lia. }
  split.
  - intros [[Hi Hij] Hj].
    assert (ilow = i) as Hl' by (subst n; lia).
    assert (ihigh - ilow = j - i)%Z as Hh' by (subst n; lia).
    rewrite Hh', Hl', !length_take, length_drop. subst n. lia.
  - intros [Hi Hj].
    assert (ilow = 0%Z) as Hl' by (subst n; lia).
    assert (ihigh - ilow = n)%Z as Hh' by (subst n; lia).
    rewrite Hh', Hl'. simpl. subst n. rewrite Nat2Z.id.
    by rewrite firstn_all.
Qed.

Lemma List_getslice_run_witness :
  exists (r : loc) (pre items post : list pyval),
    List___getslice__ 1 100 1%positive h_seq
    = (r, <[r := OList items]> h_seq)
    /\ h_seq !! r = None /\ r <> 1%positive /\
    (forall o : obj,
       <[r := o]> h_seq !! 1%positive
       = Some (OList (ints [1; 2; 3; 4; 5]%Z))) /\
    ints [1; 2; 3; 4; 5]%Z = pre ++ items ++ post /\
    Z.of_nat (length pre) = 1%Z /\
    Z.of_nat (length items) = 4%Z /\
    ((0 <= 1 <= 100)%Z /\ (100 <= 5)%Z ->
       length pre = 1 /\ length items = 99) /\
    ((1 <= 0)%Z /\ (5 <= 100)%Z -> items = ints [1; 2; 3; 4; 5]%Z).
Proof.
  exact (List_getslice_run 1 100 1%positive h_seq (ints [1; 2; 3; 4; 5]%Z)
           eq_refl).
Defined.

(** ** [Dict]: the flag, and what the constructor keeps *)

(** X14: with [_moka_save] set on the receiver, [map], [keep] and [rem]
    return [None] once the arguments are bound: no [Dict] is created, no
    object changes, and the function is not called on any pair, so that even
    one that would raise goes unnoticed. *)
Theorem Dict_transforms_saved
    (op_getattr : string -> option (pyval -> pyval -> res pyval))
    (args : posargs) (kw : kwargs) (d : loc) (h : heap)
    (kv : list (pyval * pyval)) (p : bound2) :
  h !! d = Some (ODict kv true) ->
  Dict__f op_getattr args kw = Ok p ->
  Dict_map op_getattr args kw d h = Ok (None, h) /\
  Dict_keep op_getattr args kw d h = Ok (None, h) /\
  Dict_rem op_getattr args kw d h = Ok (None, h).
Proof.
  intros Hd Hp. unfold Dict_map, Dict_keep, Dict_rem, Dict__moka_assign.
  destruct (dict_items_lookup _ _ _ _ Hd) as [_ ->]. by rewrite Hp.
Qed.

Lemma Dict_transforms_saved_witness :
  Dict_map operator_cmp (Args pair_double []) [] 1%positive h_saved
  = Ok (None, h_saved) /\
  Dict_keep operator_cmp (Args pair_double []) [] 1%positive h_saved
  = Ok (None, h_saved) /\
  Dict_rem operator_cmp (Args pair_double []) [] 1%positive h_saved
  = Ok (None, h_saved).
Proof.
  exact (Dict_transforms_saved operator_cmp (Args pair_double []) []
           1%positive h_saved _ _ eq_refl eq_refl).
Defined.

Lemma dict_setitem_keys (Q : pyval -> Prop) (k v : pyval)
    (d : list (pyval * pyval)) :
  Forall (fun e => Q e.1) d -> Q k ->
  Forall (fun e => Q e.1) (dict_setitem k v d).
Proof.
  induction 1 as [|[k' v'] d Hk' Hd IH]; intros Hk; simpl.
  - by repeat constructor.
  - destruct (py_eq k' k); constructor; auto.
Qed.

Lemma dict_setitem_wf (k v : pyval) (d : list (pyval * pyval)) :
  dict_wf d -> hashable k = true -> dict_wf (dict_setitem k v d).
Proof.
  intros [Hh Hd] Hk. split.
  - by apply (dict_setitem_keys (fun k => hashable k = true)).
  - clear Hh. induction d as [|[k' v'] d IH]; simpl; [done|].
    destruct Hd as [Hk' Hd]. destruct (py_eq k' k) eqn:Heq; simpl.
    + done.
    + split; [|by apply IH].
      by apply (dict_setitem_keys (fun k0 => py_eq k' k0 = false)).
Qed.

Lemma dict_setitem_length (k v : pyval) (d : list (pyval * pyval)) :
  length d <= length (dict_setitem k v d) <= S (length d).
Proof.
  induction d as [|[k' v'] d IH]; simpl; [lia|].
  destruct (py_eq k' k); simpl; lia.
Qed.

Lemma dict_fill_wf (gen : pyval -> pyval -> res (option pyval))
    (src d d' : list (pyval * pyval)) :
  dict_wf d ->
  dict_fill gen src d = Ok d' ->
  dict_wf d' /\ length d' <= length d + length src.
Proof.
  revert d. induction src as [|[x y] src IH]; intros d Hd; simpl.
  - intros [= <-]. split; [done|lia].
  - destruct (gen x y) as [[item|]|]; cbn; [| |done].
    + destruct (unpack_pair item) as [[k v]|]; cbn; [|done].
      destruct (hashable k) eqn:Hk; [|done].
      intros Hfill. apply IH in Hfill as [Hwf Hlen].
      * split; [done|]. pose proof (dict_setitem_length k v d). lia.
      * by apply dict_setitem_wf.
    + intros Hfill. apply IH in Hfill as [Hwf Hlen]; [|done].
      split; [done|lia].
Qed.

Lemma dict_wf_nil : dict_wf [].
Proof. split; [constructor|done]. Qed.

(** X15: whatever the function returns, a [Dict] that [map], [keep] or [rem]
    returns is a new object with hashable keys, no two of them equal, and
    with no more pairs than the receiver; the heap is otherwise as before. *)
Theorem Dict_transforms_result_wf
    (op_getattr : string -> option (pyval -> pyval -> res pyval))
    (args : posargs) (kw : kwargs) (d r : loc) (h h' : heap) :
  Dict_map op_getattr args kw d h = Ok (Some r, h') \/
  Dict_keep op_getattr args kw d h = Ok (Some r, h') \/
  Dict_rem op_getattr args kw d h = Ok (Some r, h') ->
  exists kv' : list (pyval * pyval),
    h !! r = None /\ h' = <[r := ODict kv' false]> h /\
    dict_wf kv' /\ length kv' <= length (dict_items h d).
Proof.
  assert (forall gen,
            Dict__moka_assign d gen (dict_items h d) h = Ok (Some r, h') ->
            exists kv', h !! r = None /\ h' = <[r := ODict kv' false]> h /\
              dict_wf kv' /\ length kv' <= length (dict_items h d)) as Hgen.
  { intros gen. unfold Dict__moka_assign, Dict_new, alloc.
    destruct (dict_save h d); [done|].
    destruct (dict_fill gen (dict_items h d) []) as [kv'|] eqn:Hfill;
      [|done].
    cbn. intros [= <- <-]. exists kv'.
    destruct (dict_fill_wf _ _ _ _ dict_wf_nil Hfill) as [Hwf Hlen].
    split; [apply not_elem_of_dom, is_fresh|].
    split; [done|]. split; [done|]. simpl in Hlen. lia. }
  unfold Dict_map, Dict_keep, Dict_rem.
  destruct (Dict__f op_getattr args kw) as [p|]; cbn.
  - intros [H|[H|H]]; by apply Hgen in H.
  - by intros [H|[H|H]].
Qed.

Lemma Dict_transforms_result_wf_witness :
  exists kv' : list (pyval * pyval),
    h_abc !! 2%positive = None /\
    <[2%positive := ODict [(PInt 1, PInt 3)] false]> h_abc
    = <[2%positive := ODict kv' false]> h_abc /\
    dict_wf kv' /\ length kv' <= length (dict_items h_abc 1%positive).
Proof.
  apply (Dict_transforms_result_wf operator_cmp (Args one_key []) []
           1%positive 2%positive h_abc).
  left. reflexivity.
Defined.

(** ** [Dict]: queries *)

Lemma loop2_returns (p : bound2) (g : pyval -> pyval -> pyval)
    (kv : list (pyval * pyval)) :
  returns_on2 p g kv ->
  loop2_all p kv = Ok (forallb (fun e => truthy (g e.1 e.2)) kv) /\
  loop2_some p kv = Ok (existsb (fun e => truthy (g e.1 e.2)) kv).
Proof.
  induction 1 as [|[x y] kv Hx _ [IHa IHs]]; simpl; [done|].
  simpl in Hx. rewrite Hx. cbn. by destruct (truthy (g x y)).
Qed.

Lemma filter_falsy_forallb {A : Type} (t : A -> pyval) (l : list A) :
  Nat.eqb (length (List.filter (fun x => falsy (t x)) l)) 0
  = forallb (fun x => truthy (t x)) l.
Proof.
  induction l as [|x l IH]; simpl; [done|]. unfold falsy in *.
  by destruct (truthy (t x)).
Qed.

(** X16: for a predicate that raises on no pair, [empty(p)], computed from
    the length of [rem(p)] on a copy, returns what the loop of [all(p)]
    returns; [some(p)] is true exactly when [count(p)] is positive and
    [all(p)] exactly when [count(p)] is the number of pairs. *)
Theorem Dict_queries_agree
    (op_getattr : string -> option (pyval -> pyval -> res pyval))
    (args : posargs) (kw : kwargs) (d : loc) (h : heap)
    (kv : list (pyval * pyval)) (sv : bool) (p : bound2)
    (g : pyval -> pyval -> pyval) :
  h !! d = Some (ODict kv sv) ->
  dict_wf kv ->
  Dict__f op_getattr args kw = Ok p ->
  returns_on2 p g kv ->
  exists (a b : bool) (n : nat) (h1 h2 : heap),
    Dict_all op_getattr args kw d h = Ok a /\
    Dict_some op_getattr args kw d h = Ok b /\
    Dict_empty op_getattr args kw d h = Ok (a, h1) /\
    Dict_count op_getattr args kw d h = Ok (n, h2) /\
    (b = true <-> 0 < n) /\
    (a = true <-> n = length kv).
Proof.
  intros Hd Hwf Hp Hg.
  destruct (Dict_count_keep op_getattr args kw d h kv sv p g Hd Hwf Hp Hg)
    as (h2 & Hc & He & _).
  destruct (loop2_returns p g kv Hg) as [Ha Hs].
  destruct (dict_items_lookup _ _ _ _ Hd) as [Hitems _].
  eexists _, _, _, _, _. split; [|split; [|split; [|split; [exact Hc|]]]].
  - unfold Dict_all. rewrite Hp, Hitems. exact Ha.
  - unfold Dict_some. rewrite Hp, Hitems. exact Hs.
  - rewrite He. by rewrite filter_falsy_forallb.
  - split; [apply existsb_filter_pos | apply forallb_filter_all].
Qed.

Lemma Dict_queries_agree_witness :
  exists (a b : bool) (n : nat) (h1 h2 : heap),
    Dict_all operator_cmp (Args in_zero_none []) [] 2%positive h_both = Ok a
    /\
    Dict_some operator_cmp (Args in_zero_none []) [] 2%positive h_both = Ok b
    /\
    Dict_empty operator_cmp (Args in_zero_none []) [] 2%positive h_both
    = Ok (a, h1) /\
    Dict_count operator_cmp (Args in_zero_none []) [] 2%positive h_both
    = Ok (n, h2) /\
    (b = true <-> 0 < n) /\
    (a = true <-> n = 2).
Proof.
  exact (Dict_queries_agree operator_cmp (Args in_zero_none []) []
           2%positive h_both d_zero_none false _ _ eq_refl d_zero_none_wf
           eq_refl (in_zero_none_returns_on d_zero_none _ eq_refl)).
Defined.

(** ** [Dict]: [keep] and [rem] together *)

Lemma filter_split_perm {A : Type} (t : A -> bool) (l : list A) :
  Permutation l (List.filter t l ++ List.filter (fun x => negb (t x)) l).
Proof.
  induction l as [|x l IH]; simpl; [done|].
  destruct (t x); simpl.
  - by constructor.
  - rewrite <- Permutation_middle. by constructor.
Qed.

(** X17: [keep] and [rem] of a [Dict] (flag unset) one after the other on
    the same receiver split its pairs: each returns a new [Dict], the
    receiver is the same for both calls, the two lengths add up to the
    number of pairs, every pair of the receiver is in exactly one of the two
    results (together they are the receiver's pairs up to their order), the
    one [keep] returns holds accepted pairs only and the other one rejected
    pairs only. *)
Theorem Dict_keep_rem_partition
    (op_getattr : string -> option (pyval -> pyval -> res pyval))
    (args : posargs) (kw : kwargs) (d : loc) (h : heap)
    (kv : list (pyval * pyval)) (p : bound2)
    (g : pyval -> pyval -> pyval) :
  h !! d = Some (ODict kv false) ->
  dict_wf kv ->
  Dict__f op_getattr args kw = Ok p ->
  returns_on2 p g kv ->
  exists (rk rr : loc) (hk hr : heap),
    Dict_keep op_getattr args kw d h = Ok (Some rk, hk) /\
    Dict_rem op_getattr args kw d hk = Ok (Some rr, hr) /\
    rk <> d /\ rr <> d /\ rk <> rr /\
    hr !! d = Some (ODict kv false) /\
    length (dict_items hr rk) + length (dict_items hr rr) = length kv /\
    Permutation kv (dict_items hr rk ++ dict_items hr rr) /\
    Forall (fun e => truthy (g e.1 e.2) = true) (dict_items hr rk) /\
    Forall (fun e => truthy (g e.1 e.2) = false) (dict_items hr rr).
Proof.
  intros Hd Hwf Hp Hg.
  destruct (Dict_filters_return op_getattr args kw d h kv p g Hd Hwf Hp Hg)
    as (Hr1 & Hr1d & Hk & _).
  set (rk := fresh (dom h)) in *.
  set (hk := <[rk := ODict (List.filter (fun e => truthy (g e.1 e.2)) kv)
                        false]> h) in *.
  assert (hk !! d = Some (ODict kv false)) as Hd'
    by (subst hk; by rewrite lookup_insert_ne).
  destruct (Dict_filters_return op_getattr args kw d hk kv p g Hd' Hwf Hp Hg)
    as (Hr2 & Hr2d & _ & Hr).
  set (rr := fresh (dom hk)) in *.
  assert (rk <> rr) as Hne.
  { intros Heq. rewrite <- Heq in Hr2. subst hk.
    by rewrite lookup_insert_eq in Hr2. }
  eexists rk, rr, hk, _. split; [exact Hk|]. split; [exact Hr|].
  split; [done|]. split; [done|]. split; [done|].
  split; [by rewrite lookup_insert_ne|].
  rewrite dict_items_insert.
  assert (dict_items
            (<[rr := ODict (List.filter (fun e => falsy (g e.1 e.2)) kv)
                       false]> hk) rk
          = List.filter (fun e => truthy (g e.1 e.2)) kv) as ->.
  { unfold dict_items. rewrite lookup_insert_ne by done.
    subst hk. by rewrite lookup_insert_eq. }
  unfold falsy. split; [apply filter_length_split|].
  split; [apply filter_split_perm|].
  split; apply List.Forall_forall; intros x [_ Hx]%List.filter_In;
    [done | by apply negb_true_iff].
Qed.

Lemma d_abc_eq2_returns_on :
  forall p, Dict__f operator_cmp NoArgs [("eq", PInt 2)] = Ok p ->
  returns_on2 p (fun _ y => PBool (py_eq y (PInt 2))) d_abc.
Proof. intros p [= <-]. by repeat constructor. Qed.

Lemma Dict_keep_rem_partition_witness :
  exists (rk rr : loc) (hk hr : heap),
    Dict_keep operator_cmp NoArgs [("eq", PInt 2)] 1%positive h_abc
    = Ok (Some rk, hk) /\
    Dict_rem operator_cmp NoArgs [("eq", PInt 2)] 1%positive hk
    = Ok (Some rr, hr) /\
    rk <> 1%positive /\ rr <> 1%positive /\ rk <> rr /\
    hr !! 1%positive = Some (ODict d_abc false) /\
    length (dict_items hr rk) + length (dict_items hr rr) = 3 /\
    Permutation d_abc (dict_items hr rk ++ dict_items hr rr) /\
    Forall (fun e => py_eq e.2 (PInt 2) = true) (dict_items hr rk) /\
    Forall (fun e => py_eq e.2 (PInt 2) = false) (dict_items hr rr).
Proof.
  exact (Dict_keep_rem_partition operator_cmp NoArgs [("eq", PInt 2)]
           1%positive h_abc d_abc _ _ eq_refl d_abc_wf eq_refl
           (d_abc_eq2_returns_on _ eq_refl)).
Defined.

(** ** Equality of keys *)

Lemma pyval_ind_nested (P : pyval -> Prop) :
  P PNone -> (forall b, P (PBool b)) -> (forall n, P (PInt n)) ->
  (forall s, P (PStr s)) -> P PBlank ->
  (forall xs, Forall P xs -> P (PTuple xs)) ->
  (forall xs, Forall P xs -> P (PList xs)) ->
  forall v, P v.
Proof.
  intros HN HB HI HS HK HT HL. fix IH 1. intros [| b | n | s | | xs | xs].
  - exact HN.
  - apply HB.
  - apply HI.
  - apply HS.
  - exact HK.
  - apply HT. induction xs as [|x xs IHxs]; constructor; [apply IH|exact IHxs].
  - apply HL. induction xs as [|x xs IHxs]; constructor; [apply IH|exact IHxs].
Qed.

Lemma py_cmp_PList_cons (x y : pyval) (xs ys : list pyval) :
  py_cmp (PList (x :: xs)) (PList (y :: ys))
  = match py_cmp x y with Eq => py_cmp (PList xs) (PList ys) | c => c end.
Proof. reflexivity. Qed.

Lemma py_cmp_PTuple_cons (x y : pyval) (xs ys : list pyval) :
  py_cmp (PTuple (x :: xs)) (PTuple (y :: ys))
  = match py_cmp x y with Eq => py_cmp (PTuple xs) (PTuple ys) | c => c end.
Proof. reflexivity. Qed.

Lemma string_compare_refl (s : string) : String.compare s s = Eq.
Proof.
  pose proof (String.compare_antisym s s) as H.
  by destruct (String.compare s s).
Qed.

Lemma py_cmp_norm (a b : pyval) :
  py_cmp a b = Eq <-> py_norm a = py_norm b.
Proof.
  revert b.
  induction a as [| b1 | n | s | | xs IH | xs IH] using pyval_ind_nested;
    intros b.
  - destruct b; cbn; split; congruence.
  - destruct b as [| b2 | n2 | | | |]; cbn; try (split; congruence).
    + rewrite Z.compare_eq_iff. split; [congruence|]. by intros [= ->].
    + rewrite Z.compare_eq_iff. split; [congruence|]. by intros [= ->].
  - destruct b as [| b2 | n2 | | | |]; cbn; try (split; congruence).
    + rewrite Z.compare_eq_iff. split; [congruence|]. by intros [= ->].
    + rewrite Z.compare_eq_iff. split; [congruence|]. by intros [= ->].
  - destruct b as [| | | s2 | | |]; try (cbn; split; congruence).
    cbn [py_cmp py_norm]. split.
    + by intros ->%String.compare_eq_iff.
    + intros [= ->]. apply string_compare_refl.
  - destruct b; cbn; split; congruence.
  - destruct b as [| | | | | ys |]; try (cbn; split; congruence).
    revert ys. induction IH as [|x xs Hx _ IHxs]; intros [|y ys];
      try (cbn; split; congruence).
    rewrite py_cmp_PTuple_cons. cbn [py_norm map].
    destruct (py_cmp x y) eqn:Hxy.
    + apply Hx in Hxy. rewrite IHxs. cbn [py_norm]. rewrite Hxy.
      split; [by intros [= ->]|by intros [= ->]].
    + split; [done|]. intros [= Hn _]. apply Hx in Hn. congruence.
    + split; [done|]. intros [= Hn _]. apply Hx in Hn. congruence.
  - destruct b as [| | | | | | ys]; try (cbn; split; congruence).
    revert ys. induction IH as [|x xs Hx _ IHxs]; intros [|y ys];
      try (cbn; split; congruence).
    rewrite py_cmp_PList_cons. cbn [py_norm map].
    destruct (py_cmp x y) eqn:Hxy.
    + apply Hx in Hxy. rewrite IHxs. cbn [py_norm]. rewrite Hxy.
      split; [by intros [= ->]|by intros [= ->]].
    + split; [done|]. intros [= Hn _]. apply Hx in Hn. congruence.
    + split; [done|]. intros [= Hn _]. apply Hx in Hn. congruence.
Qed.

Lemma py_eq_norm (a b : pyval) : py_eq a b = true <-> py_norm a = py_norm b.
Proof.
  rewrite <- py_cmp_norm. unfold py_eq. by destruct (py_cmp a b).
Qed.

Lemma py_eq_refl (a : pyval) : py_eq a a = true.
Proof. by apply py_eq_norm. Qed.

Lemma py_eq_congr (a b c : pyval) :
  py_eq a b = true -> py_eq a c = py_eq b c.
Proof.
  intros Hab%py_eq_norm.
  destruct (py_eq a c) eqn:Hac, (py_eq b c) eqn:Hbc; try done.
  - apply py_eq_norm in Hac. rewrite <- Hbc. symmetry. apply py_eq_norm.
    congruence.
  - apply py_eq_norm in Hbc. rewrite <- Hac. apply py_eq_norm. congruence.
Qed.

Lemma py_eq_sym (a b : pyval) : py_eq a b = py_eq b a.
Proof.
  destruct (py_eq a b) eqn:Hab, (py_eq b a) eqn:Hba; try done.
  - apply py_eq_norm in Hab. rewrite <- Hba. symmetry. by apply py_eq_norm.
  - apply py_eq_norm in Hba. rewrite <- Hab. by apply py_eq_norm.
Qed.

(** ** Lookups in what the constructor builds *)

Lemma dict_getitem_setitem (k v k' : pyval) (d : list (pyval * pyval)) :
  dict_getitem k' (dict_setitem k v d)
  = if py_eq k k' then Some v else dict_getitem k' d.
Proof.
  induction d as [|[k0 v0] d IH]; simpl; [done|].
  destruct (py_eq k0 k) eqn:H0; simpl.
  - rewrite (py_eq_congr k0 k k' H0). by destruct (py_eq k k').
  - rewrite IH. destruct (py_eq k0 k') eqn:H1; [|done].
    destruct (py_eq k k') eqn:H2; [|done].
    rewrite (py_eq_sym k k') in H2.
    rewrite (py_eq_sym k0 k'), (py_eq_congr k' k k0 H2), py_eq_sym in H1.
    congruence.
Qed.

Lemma dict_getitem_app (k : pyval) (d1 d2 : list (pyval * pyval)) :
  dict_getitem k (d1 ++ d2)
  = match dict_getitem k d1 with
    | Some v => Some v
    | None => dict_getitem k d2
    end.
Proof.
  induction d1 as [|[k0 v0] d1 IH]; simpl; [done|].
  by destruct (py_eq k0 k).
Qed.

Lemma dict_getitem_foldl (k : pyval) (l d : list (pyval * pyval)) :
  dict_getitem k (foldl dict_store d l)
  = match dict_getitem k (rev l) with
    | Some v => Some v
    | None => dict_getitem k d
    end.
Proof.
  revert d. induction l as [|[k0 v0] l IH]; intros d; simpl; [done|].
  rewrite IH, dict_getitem_app.
  destruct (dict_getitem k (rev l)); [done|].
  unfold dict_store. simpl. rewrite dict_getitem_setitem.
  by destruct (py_eq k0 k).
Qed.

Lemma dict_getitem_None (k : pyval) (d : list (pyval * pyval)) :
  Forall (fun e => py_eq e.1 k = false) d -> dict_getitem k d = None.
Proof.
  induction 1 as [|[k0 v0] d Hk _ IH]; simpl; [done|].
  simpl in Hk. by rewrite Hk.
Qed.

Lemma dict_getitem_rev (k : pyval) (d : list (pyval * pyval)) :
  keys_distinct d -> dict_getitem k (rev d) = dict_getitem k d.
Proof.
  induction d as [|[k0 v0] d IH]; simpl; [done|].
  intros [Hk0 Hd]. rewrite dict_getitem_app, (IH Hd). simpl.
  destruct (py_eq k0 k) eqn:Hk.
  - rewrite dict_getitem_None; [done|].
    eapply Forall_impl; [exact Hk0|]. intros [k1 v1]. simpl.
    intros H1. by rewrite py_eq_sym, <- (py_eq_congr k0 k k1 Hk), H1.
  - by destruct (dict_getitem k d).
Qed.

Lemma foldl_store_wf (l d : list (pyval * pyval)) :
  dict_wf d ->
  Forall (fun e => hashable e.1 = true) l ->
  dict_wf (foldl dict_store d l) /\
  length d <= length (foldl dict_store d l) <= length d + length l.
Proof.
  intros Hd Hl. revert d Hd.
  induction Hl as [|[k v] l Hk _ IH]; intros d Hd; simpl.
  { split; [done|lia]. }
  destruct (IH (dict_store d (k, v))) as [Hwf Hlen].
  { by apply dict_setitem_wf. }
  split; [done|].
  assert (length d <= length (dict_store d (k, v)) <= S (length d)) as Hset
    by exact (dict_setitem_length k v d).
  lia.
Qed.

(** X18: the [Dict] that [map] returns maps a key to the value of the last
    pair the function produced with an equal key: of two pairs with equal
    keys the later one wins. *)
Theorem Dict_map_last_wins
    (op_getattr : string -> option (pyval -> pyval -> res pyval))
    (args : posargs) (kw : kwargs) (d : loc) (h : heap)
    (kv : list (pyval * pyval)) (p : bound2)
    (gk gv : pyval -> pyval -> pyval) :
  h !! d = Some (ODict kv false) ->
  Dict__f op_getattr args kw = Ok p ->
  returns_on2 p (fun x y => PTuple [gk x y; gv x y]) kv ->
  Forall (fun e => hashable (gk e.1 e.2) = true) kv ->
  exists (r : loc) (h' : heap),
    Dict_map op_getattr args kw d h = Ok (Some r, h') /\
    forall k,
      dict_getitem k (dict_items h' r)
      = dict_getitem k
          (rev ((fun e => (gk e.1 e.2, gv e.1 e.2)) <$> kv)).
Proof.
  intros Hd Hp Hg Hh. unfold Dict_map, Dict__moka_assign, Dict_new, alloc.
  destruct (dict_items_lookup _ _ _ _ Hd) as [-> ->].
  rewrite Hp. cbn. rewrite (dict_fill_map _ _ _ _ _ Hg Hh). cbn.
  eexists _, _. split; [done|]. intros k. rewrite dict_items_insert.
  change (fun (acc : list (pyval * pyval)) (e : pyval * pyval) =>
            dict_setitem (gk e.1 e.2) (gv e.1 e.2) acc)
    with (fun (acc : list (pyval * pyval)) (e : pyval * pyval) =>
            dict_store acc ((fun e => (gk e.1 e.2, gv e.1 e.2)) e)).
  rewrite <- (foldl_fmap dict_store), dict_getitem_foldl.
  by destruct (dict_getitem k _).
Qed.

Lemma one_key_returns_on_abc :
  forall p, Dict__f operator_cmp (Args one_key []) [] = Ok p ->
  returns_on2 p (fun _ y => PTuple [PInt 1; y]) d_abc.
Proof. intros p [= <-]. by repeat constructor. Qed.

Lemma Dict_map_last_wins_witness :
  exists (r : loc) (h' : heap),
    Dict_map operator_cmp (Args one_key []) [] 1%positive h_abc
    = Ok (Some r, h') /\
    dict_getitem (PInt 1) (dict_items h' r) = Some (PInt 3) /\
    dict_getitem (PStr "a") (dict_items h' r) = None.
Proof.
  destruct (Dict_map_last_wins operator_cmp (Args one_key []) [] 1%positive
              h_abc d_abc _ (fun _ _ => PInt 1) (fun _ y => y)
              eq_refl eq_refl (one_key_returns_on_abc _ eq_refl))
    as (r & h' & Hmap & Hget); [by repeat constructor|].
  exists r, h'. split; [exact Hmap|]. by rewrite !Hget.
Defined.

(** ** The proxies of [Dict], and [fromkeys] *)



Lemma dict_fromkeys_foldl (keys : list pyval) (value : pyval)
    (d : list (pyval * pyval)) :
  Forall (fun k => hashable k = true) keys ->
  dict_fromkeys keys value d
  = Ok (foldl dict_store d ((fun k => (k, value)) <$> keys)).
Proof.
  intros Hk. revert d. induction Hk as [|k keys Hh _ IH]; intros d; simpl;
    [done|].
  by rewrite Hh, IH.
Qed.

Lemma dict_fromkeys_raise (keys : list pyval) (value : pyval)
    (d : list (pyval * pyval)) :
  Exists (fun k => hashable k = false) keys ->
  dict_fromkeys keys value d = Raise TypeError.
Proof.
  intros Hk. revert d. induction Hk as [k keys Hh|k keys _ IH]; intros d;
    simpl.
  - by rewrite Hh.
  - destruct (hashable k); [apply IH|done].
Qed.

Lemma existsb_rev_eq {A : Type} (t : A -> bool) (l : list A) :
  existsb t (rev l) = existsb t l.
Proof.
  induction l as [|x l IH]; simpl; [done|].
  rewrite existsb_app, IH. simpl. by destruct (t x), (existsb t l).
Qed.

Lemma dict_getitem_const (k value : pyval) (keys : list pyval) :
  dict_getitem k ((fun k0 => (k0, value)) <$> keys)
  = if py_in k keys then Some value else None.
Proof.
  unfold py_in. induction keys as [|k0 keys IH]; simpl; [done|].
  by destruct (py_eq k0 k).
Qed.

(** X20: [fromkeys] returns a new [Dict] in which every key of the argument,
    and no other, has the given value; equal keys are stored once, so the
    dict has at most as many pairs as there were keys.  One unhashable key
    makes the call fail with [TypeError]. *)
Theorem Dict_fromkeys_lookup (keys : list pyval) (value : pyval) (h : heap) :
  (Forall (fun k => hashable k = true) keys ->
   exists (r : loc) (kv : list (pyval * pyval)),
     Dict_fromkeys keys value h = Ok (r, <[r := ODict kv false]> h) /\
     h !! r = None /\
     dict_wf kv /\ length kv <= length keys /\
     forall k,
       dict_getitem k kv = if py_in k keys then Some value else None) /\
  (Exists (fun k => hashable k = false) keys ->
   Dict_fromkeys keys value h = Raise TypeError).
Proof.
  unfold Dict_fromkeys, alloc. split.
  - intros Hk. rewrite (dict_fromkeys_foldl keys value [] Hk). cbn.
    eexists _, _. split; [done|].
    split; [apply not_elem_of_dom, is_fresh|].
    destruct (foldl_store_wf ((fun k => (k, value)) <$> keys) []
                dict_wf_nil) as [Hwf Hlen].
    { apply Forall_fmap. eapply Forall_impl; [exact Hk|]. done. }
    split; [done|]. rewrite length_fmap in Hlen. simpl in Hlen.
    split; [lia|].
    intros k. rewrite dict_getitem_foldl. simpl.
    change ((fun k0 : pyval => (k0, value)) <$> keys)
      with (map (fun k0 : pyval => (k0, value)) keys).
    rewrite <- map_rev.
    change (map (fun k0 : pyval => (k0, value)) (rev keys))
      with ((fun k0 : pyval => (k0, value)) <$> rev keys).
    rewrite dict_getitem_const. unfold py_in. rewrite existsb_rev_eq.
    by destruct (existsb _ keys).
  - intros Hk. by rewrite (dict_fromkeys_raise keys value [] Hk).
Qed.

Lemma Dict_fromkeys_lookup_witness :
  (exists (r : loc) (kv : list (pyval * pyval)),
     Dict_fromkeys [PInt 1; PInt 2; PBool true] PNone h_abc
     = Ok (r, <[r := ODict kv false]> h_abc) /\
     h_abc !! r = None /\
     dict_wf kv /\ length kv <= 3 /\
     forall k,
       dict_getitem k kv
       = if py_in k [PInt 1; PInt 2; PBool true] then Some PNone else None)
  /\
  Dict_fromkeys [PInt 1; PList []] PNone h_abc = Raise TypeError.
Proof.
  split.
  - apply (Dict_fromkeys_lookup [PInt 1; PInt 2; PBool true] PNone h_abc).
    by repeat constructor.
  - apply (Dict_fromkeys_lookup [PInt 1; PList []] PNone h_abc).
    apply Exists_cons_tl, Exists_cons_hd. reflexivity.
Defined.

(** ** [Dict]: the operator keyword, and copies *)

(** X21: with a keyword that names an operator, [keep] and [rem] select the
    pairs by their value alone, whatever the keys, and ignore any positional
    argument and any further keyword given with it. *)
Theorem Dict_keep_rem_by_value
    (op_getattr : string -> option (pyval -> pyval -> res pyval))
    (args : posargs) (k : string) (v : pyval) (kw : kwargs)
    (fn : pyval -> pyval -> res pyval) (gv : pyval -> pyval)
    (d : loc) (h : heap) (kv : list (pyval * pyval)) :
  h !! d = Some (ODict kv false) ->
  dict_wf kv ->
  op_getattr k = Some fn ->
  Forall (fun e => fn e.2 v = Ok (gv e.2)) kv ->
  exists r : loc,
    h !! r = None /\
    Dict_keep op_getattr args ((k, v) :: kw) d h
    = Ok (Some r,
          <[r := ODict (List.filter (fun e => truthy (gv e.2)) kv) false]> h)
    /\
    Dict_rem op_getattr args ((k, v) :: kw) d h
    = Ok (Some r,
          <[r := ODict (List.filter (fun e => falsy (gv e.2)) kv) false]> h).
Proof.
  intros Hd Hwf Hk Hfn.
  assert (Dict__f op_getattr args ((k, v) :: kw) = Ok (fun _ y => fn y v))
    as Hp by (simpl; by rewrite Hk).
  destruct (Dict_filters_return op_getattr args ((k, v) :: kw) d h kv _
              (fun _ y => gv y) Hd Hwf Hp Hfn) as (Hr & _ & Hkeep & Hrem).
  by exists (fresh (dom h)).
Qed.

Lemma Dict_keep_rem_by_value_witness :
  exists r : loc,
    h_abc !! r = None /\
    Dict_keep operator_cmp (Args in_zero_none []) [("gt", PInt 1); ("x", PNone)]
      1%positive h_abc
    = Ok (Some r,
          <[r := ODict [(PStr "b", PInt 2); (PStr "c", PInt 3)] false]> h_abc)
    /\
    Dict_rem operator_cmp (Args in_zero_none []) [("gt", PInt 1); ("x", PNone)]
      1%positive h_abc
    = Ok (Some r, <[r := ODict [(PStr "a", PInt 1)] false]> h_abc).
Proof.
  apply (Dict_keep_rem_by_value operator_cmp (Args in_zero_none []) "gt"
           (PInt 1) [("x", PNone)] _
           (fun y => PBool (match py_cmp y (PInt 1) with
                            | Gt => true | _ => false end))
           1%positive h_abc d_abc eq_refl d_abc_wf eq_refl).
  by repeat constructor.
Defined.

(** X22: [copy] returns a new [Dict] with the pairs of the receiver and the
    flag unset, whatever the receiver's flag: where [keep] and [rem] on a
    receiver with the flag set return [None], on its copy they return the
    selected pairs. *)
Theorem Dict_copy_unsaved
    (op_getattr : string -> option (pyval -> pyval -> res pyval))
    (args : posargs) (kw : kwargs) (d : loc) (h : heap)
    (kv : list (pyval * pyval)) (sv : bool) (p : bound2)
    (g : pyval -> pyval -> pyval) :
  h !! d = Some (ODict kv sv) ->
  dict_wf kv ->
  Dict__f op_getattr args kw = Ok p ->
  returns_on2 p g kv ->
  exists (c r : loc) (h1 : heap),
    Dict_copy d h = (c, h1) /\
    h !! c = None /\ c <> d /\
    h1 !! c = Some (ODict kv false) /\ h1 !! d = Some (ODict kv sv) /\
    Dict_keep op_getattr args kw c h1
    = Ok (Some r,
          <[r := ODict (List.filter (fun e => truthy (g e.1 e.2)) kv)
                   false]> h1) /\
    Dict_rem op_getattr args kw c h1
    = Ok (Some r,
          <[r := ODict (List.filter (fun e => falsy (g e.1 e.2)) kv)
                   false]> h1).
Proof.
  intros Hd Hwf Hp Hg. unfold Dict_copy, alloc.
  destruct (dict_items_lookup _ _ _ _ Hd) as [-> _].
  set (c := fresh (dom h)).
  assert (h !! c = None) as Hc by apply not_elem_of_dom, is_fresh.
  assert (c <> d) as Hcd by (intros Heq; rewrite Heq in Hc; congruence).
  destruct (Dict_filters_return op_getattr args kw c
              (<[c := ODict kv false]> h) kv p g)
    as (_ & _ & Hk & Hr); [apply lookup_insert_eq|done|done|done|].
  eexists c, _, _. split; [done|]. split; [done|]. split; [done|].
  split; [apply lookup_insert_eq|]. split; [by rewrite lookup_insert_ne|].
  split; [exact Hk | exact Hr].
Qed.

Lemma in_zero_none_returns_on_saved :
  forall p, Dict__f operator_cmp (Args in_zero_none []) [] = Ok p ->
  returns_on2 p (fun _ v => PBool (py_in v [PInt 0; PNone]))
    [(PStr "a", PNone); (PStr "b", PNone)].
Proof. intros p [= <-]. by repeat constructor. Qed.

Lemma Dict_copy_unsaved_witness :
  exists (c r : loc) (h1 : heap),
    Dict_copy 1%positive h_saved = (c, h1) /\
    h_saved !! c = None /\ c <> 1%positive /\
    h1 !! c = Some (ODict [(PStr "a", PNone); (PStr "b", PNone)] false) /\
    h1 !! 1%positive
    = Some (ODict [(PStr "a", PNone); (PStr "b", PNone)] true) /\
    Dict_keep operator_cmp (Args in_zero_none []) [] c h1
    = Ok (Some r,
          <[r := ODict [(PStr "a", PNone); (PStr "b", PNone)] false]> h1) /\
    Dict_rem operator_cmp (Args in_zero_none []) [] c h1
    = Ok (Some r, <[r := ODict [] false]> h1).
Proof.
  eapply (Dict_copy_unsaved operator_cmp (Args in_zero_none []) []
            1%positive h_saved _ true _
            (fun _ v => PBool (py_in v [PInt 0; PNone])) eq_refl).
  - split; by repeat constructor.
  - reflexivity.
  - exact (in_zero_none_returns_on_saved _ eq_refl).
Defined.

(** ** [Dict]: where the methods stop *)

Lemma loop2_all_rejects (p : bound2) (g : pyval -> pyval -> pyval)
    (kv1 kv2 : list (pyval * pyval)) :
  returns_on2 p g kv1 ->
  Exists (fun e => truthy (g e.1 e.2) = false) kv1 ->
  loop2_all p (kv1 ++ kv2) = Ok false.
Proof.
  induction 1 as [|[x y] kv1 Hx _ IH]; intros Hex; simpl.
  - by apply Exists_nil in Hex.
  - simpl in Hx. rewrite Hx. cbn.
    destruct (truthy (g x y)) eqn:Ht; [|done].
    apply Exists_cons in Hex as [Hex|Hex]; [simpl in Hex; congruence|].
    by apply IH.
Qed.

Lemma dict_fill_filter_raise (test : pyval -> bool) (p : bound2)
    (g : pyval -> pyval -> pyval) (kv1 kv2 d : list (pyval * pyval))
    (x y : pyval) (ex : exn) :
  returns_on2 p g kv1 ->
  Forall (fun e => hashable e.1 = true) kv1 ->
  p x y = Raise ex ->
  dict_fill (gen2_filter test p) (kv1 ++ (x, y) :: kv2) d = Raise ex.
Proof.
  intros Hg. revert d.
  induction Hg as [|[x1 y1] kv1 Hx1 _ IH]; intros d Hh Hx.
  - cbn [app dict_fill]. unfold gen2_filter. by rewrite Hx.
  - apply Forall_cons in Hh as [Hh1 Hh]. simpl in Hx1, Hh1.
    assert (gen2_filter test p x1 y1
            = Ok (if test (g x1 y1) then Some (PTuple [x1; y1]) else None))
      as Hgen by (unfold gen2_filter; by rewrite Hx1).
    change (((x1, y1) :: kv1) ++ (x, y) :: kv2)
      with ((x1, y1) :: (kv1 ++ (x, y) :: kv2)).
    cbn [dict_fill]. rewrite Hgen.
    destruct (test (g x1 y1)); cbn [mbind res_bind unpack_pair iter_items].
    + rewrite Hh1. by apply IH.
    + by apply IH.
Qed.

(** X23: [all] stops at the first pair the predicate rejects, while
    [empty] with a predicate, [count] with a predicate, [keep] and [rem] call
    it on every pair.  When the predicate raises on a pair that comes after a
    rejected one, [all] returns [False] and the other four raise: [keep] and
    [rem], which go through the receiver's pairs, the exception of the first
    pair that raises; [empty] and [count], which go through the pairs of a
    copy, an exception that the predicate raises on one of the pairs. *)
Theorem Dict_all_stops_others_raise
    (op_getattr : string -> option (pyval -> pyval -> res pyval))
    (args : posargs) (kw : kwargs) (d : loc) (h : heap)
    (kv1 kv2 : list (pyval * pyval)) (x y : pyval) (ex : exn)
    (p : bound2) (g : pyval -> pyval -> pyval) :
  h !! d = Some (ODict (kv1 ++ (x, y) :: kv2) false) ->
  dict_wf (kv1 ++ (x, y) :: kv2) ->
  Dict__f op_getattr args kw = Ok p ->
  returns_on2 p g kv1 ->
  Exists (fun e => truthy (g e.1 e.2) = false) kv1 ->
  p x y = Raise ex ->
  Dict_all op_getattr args kw d h = Ok false /\
  Dict_keep op_getattr args kw d h = Raise ex /\
  Dict_rem op_getattr args kw d h = Raise ex /\
  (exists (ex' : exn) (e : pyval * pyval),
     In e (kv1 ++ (x, y) :: kv2) /\ p e.1 e.2 = Raise ex' /\
     Dict_empty op_getattr args kw d h = Raise ex') /\
  (exists (ex' : exn) (e : pyval * pyval),
     In e (kv1 ++ (x, y) :: kv2) /\ p e.1 e.2 = Raise ex' /\
     Dict_count op_getattr args kw d h = Raise ex').
Proof.
  intros Hd [Hh _] Hp Hg Hex Hx.
  apply Forall_app in Hh as [Hh1 _].
  pose proof (Dict__f_Ok_args _ _ _ _ Hp) as Hargs.
  destruct (dict_items_lookup _ _ _ _ Hd) as [Hitems Hsave].
  assert (forall test c (h1 : heap),
            h1 !! c = Some (ODict (kv1 ++ (x, y) :: kv2) false) ->
            Dict__moka_assign c (gen2_filter test p)
              (dict_items h1 c) h1 = Raise ex) as Hassign.
  { intros test c h1 Hc. unfold Dict__moka_assign, Dict_new.
    destruct (dict_items_lookup _ _ _ _ Hc) as [-> ->].
    by rewrite (dict_fill_filter_raise test p g kv1 kv2 [] x y ex Hg Hh1 Hx). }
  assert (In (x, y) (kv1 ++ (x, y) :: kv2)) as Hin by apply in_elt.
  split; [|split; [|split; [|split]]].
  - unfold Dict_all. rewrite Hp, Hitems. cbn.
    by apply (loop2_all_rejects p g).
  - unfold Dict_keep. rewrite Hp. cbn. by apply Hassign.
  - unfold Dict_rem. rewrite Hp. cbn. by apply Hassign.
  - exists ex, (x, y). split; [done|]. split; [done|].
    assert (Dict_empty op_getattr args kw d h
            = let '(c, h1) := Dict_copy d h in
              r ← Dict_rem op_getattr args kw c h1;
              n ← len_result r; Ok (Nat.eqb n 0, r.2)) as ->
      by (by destruct args, kw).
    unfold Dict_copy, alloc, Dict_rem. rewrite Hitems, Hp. cbn.
    by rewrite Hassign by apply lookup_insert_eq.
  - exists ex, (x, y). split; [done|]. split; [done|].
    assert (Dict_count op_getattr args kw d h
            = let '(c, h1) := Dict_copy d h in
              r ← Dict_keep op_getattr args kw c h1;
              n ← len_result r; Ok (n, r.2)) as ->
      by (by destruct args, kw).
    unfold Dict_copy, alloc, Dict_keep. rewrite Hitems, Hp. cbn.
    by rewrite Hassign by apply lookup_insert_eq.
Qed.

Lemma Dict_all_stops_others_raise_witness :
  Dict_all operator_cmp (Args double_value []) [] 1%positive h_zero_none
  = Ok false /\
  Dict_keep operator_cmp (Args double_value []) [] 1%positive h_zero_none
  = Raise TypeError /\
  Dict_rem operator_cmp (Args double_value []) [] 1%positive h_zero_none
  = Raise TypeError /\
  (exists (ex' : exn) (e : pyval * pyval),
     In e d_zero_none /\ double_value [e.1; e.2] [] = Raise ex' /\
     Dict_empty operator_cmp (Args double_value []) [] 1%positive h_zero_none
     = Raise ex') /\
  (exists (ex' : exn) (e : pyval * pyval),
     In e d_zero_none /\ double_value [e.1; e.2] [] = Raise ex' /\
     Dict_count operator_cmp (Args double_value []) [] 1%positive h_zero_none
     = Raise ex').
Proof.
  eapply (Dict_all_stops_others_raise operator_cmp (Args double_value []) []
            1%positive h_zero_none [(PStr "a", PInt 0)] [] (PStr "b") PNone
            TypeError _ (fun _ _ => PInt 0) eq_refl d_zero_none_wf eq_refl).
  - by repeat constructor.
  - by repeat constructor.
  - reflexivity.
Defined.

(** X24: [count] and [empty] of a [Dict] change no object that exists:
    whatever they return, the heap afterwards holds every earlier object as
    it was. *)
Theorem Dict_count_empty_frame
    (op_getattr : string -> option (pyval -> pyval -> res pyval))
    (args : posargs) (kw : kwargs) (d : loc) (h h1 : heap)
    (n : nat) (b : bool) :
  Dict_count op_getattr args kw d h = Ok (n, h1) \/
  Dict_empty op_getattr args kw d h = Ok (b, h1) ->
  forall r : loc, is_Some (h !! r) -> h1 !! r = h !! r.
Proof.
  assert (forall test (c : loc) (h0 : heap) (o : option loc) (h2 : heap),
            h !! c = None -> h0 = <[c := ODict (dict_items h d) false]> h ->
            (f ← Dict__f op_getattr args kw;
             Dict__moka_assign c (gen2_filter test f) (dict_items h0 c) h0)
            = Ok (o, h2) ->
            forall r, is_Some (h !! r) -> h2 !! r = h !! r) as Hgen.
  { intros test c h0 o h2 Hc -> Hres r [v Hr].
    assert (r <> c) as Hrc by congruence.
    destruct (Dict__f op_getattr args kw) as [p|]; [|done]. cbn in Hres.
    unfold Dict__moka_assign, Dict_new, alloc in Hres.
    destruct (dict_save _ c).
    - injection Hres as _ <-. by rewrite lookup_insert_ne.
    - destruct (dict_fill _ _ _) as [kv'|]; [|done]. cbn in Hres.
      injection Hres as _ <-.
      set (c2 := fresh (dom (<[c := ODict (dict_items h d) false]> h))).
      assert (<[c := ODict (dict_items h d) false]> h !! c2 = None) as Hc2
        by apply not_elem_of_dom, is_fresh.
      assert (r <> c2).
      { intros <-. rewrite lookup_insert_ne in Hc2 by done. congruence. }
      by rewrite !lookup_insert_ne. }
  assert (h !! fresh (dom h) = None) as Hfresh
    by apply not_elem_of_dom, is_fresh.
  unfold Dict_count, Dict_empty, Dict_copy, alloc, Dict_keep, Dict_rem.
  intros [Hc|He] r Hr.
  - assert ((args, kw) = (NoArgs, []) \/
            (r0 ← (f ← Dict__f op_getattr args kw;
                   Dict__moka_assign (fresh (dom h)) (gen2_filter truthy f)
                     (dict_items (<[fresh (dom h)
                                    := ODict (dict_items h d) false]> h)
                        (fresh (dom h)))
                     (<[fresh (dom h) := ODict (dict_items h d) false]> h));
             n0 ← len_result r0; Ok (n0, r0.2)) = Ok (n, h1))
      as [[= -> ->]|Hk] by (destruct args, kw; auto).
    + by injection Hc as _ <-.
    + destruct (f ← Dict__f op_getattr args kw; _) as [[o h2]|] eqn:Hres;
        [|done].
      cbn in Hk. destruct (len_result (o, h2)); [|done]. cbn in Hk.
      injection Hk as _ <-.
      by apply (Hgen truthy _ _ o h2 Hfresh eq_refl Hres).
  - assert ((args, kw) = (NoArgs, []) \/
            (r0 ← (f ← Dict__f op_getattr args kw;
                   Dict__moka_assign (fresh (dom h)) (gen2_filter falsy f)
                     (dict_items (<[fresh (dom h)
                                    := ODict (dict_items h d) false]> h)
                        (fresh (dom h)))
                     (<[fresh (dom h) := ODict (dict_items h d) false]> h));
             n0 ← len_result r0; Ok (Nat.eqb n0 0, r0.2)) = Ok (b, h1))
      as [[= -> ->]|Hk] by (destruct args, kw; auto).
    + by injection He as _ <-.
    + destruct (f ← Dict__f op_getattr args kw; _) as [[o h2]|] eqn:Hres;
        [|done].
      cbn in Hk. destruct (len_result (o, h2)); [|done]. cbn in Hk.
      injection Hk as _ <-.
      by apply (Hgen falsy _ _ o h2 Hfresh eq_refl Hres).
Qed.

Lemma Dict_count_empty_frame_witness :
  exists (n : nat) (h1 : heap),
    Dict_count operator_cmp (Args in_zero_none []) [] 2%positive h_both
    = Ok (n, h1) /\
    h1 !! 1%positive = h_both !! 1%positive /\
    h1 !! 2%positive = h_both !! 2%positive.
Proof.
  eexists _, _. split; [reflexivity|].
  split;
    eapply (Dict_count_empty_frame operator_cmp (Args in_zero_none []) []
              2%positive h_both _ _ true);
    try (left; reflexivity); by eexists.
Defined.

Lemma dict_fill_map_raise (p : bound2) (gk gv : pyval -> pyval -> pyval)
    (kv1 kv2 d : list (pyval * pyval)) (x y item : pyval) (ex : exn) :
  returns_on2 p (fun x y => PTuple [gk x y; gv x y]) kv1 ->
  Forall (fun e => hashable (gk e.1 e.2) = true) kv1 ->
  p x y = Ok item ->
  unpack_pair item = Raise ex \/
  (exists k v, unpack_pair item = Ok (k, v) /\ hashable k = false /\
     ex = TypeError) ->
  dict_fill (gen2_map p) (kv1 ++ (x, y) :: kv2) d = Raise ex.
Proof.
  intros Hg. revert d.
  induction Hg as [|[x1 y1] kv1 Hx1 _ IH]; intros d Hh Hx Hitem.
  - cbn [app dict_fill]. unfold gen2_map. rewrite Hx. cbn.
    destruct Hitem as [->|(k & v & -> & Hk & ->)]; [done|].
    cbn. by rewrite Hk.
  - apply Forall_cons in Hh as [Hh1 Hh]. simpl in Hx1, Hh1.
    assert (gen2_map p x1 y1 = Ok (Some (PTuple [gk x1 y1; gv x1 y1])))
      as Hgen by (unfold gen2_map; by rewrite Hx1).
    change (((x1, y1) :: kv1) ++ (x, y) :: kv2)
      with ((x1, y1) :: (kv1 ++ (x, y) :: kv2)).
    cbn [dict_fill]. rewrite Hgen.
    cbn [mbind res_bind unpack_pair iter_items]. rewrite Hh1. by apply IH.
Qed.

(** X25: [map] fails when the function returns something that is no pair:
    [TypeError] for a value that cannot be iterated, [ValueError] for a
    sequence that has not two elements, and [TypeError] for a pair whose key
    is unhashable.  The first such result, in the order of the pairs,
    decides. *)
Theorem Dict_map_bad_item
    (op_getattr : string -> option (pyval -> pyval -> res pyval))
    (args : posargs) (kw : kwargs) (d : loc) (h : heap)
    (kv1 kv2 : list (pyval * pyval)) (x y item : pyval) (ex : exn)
    (p : bound2) (gk gv : pyval -> pyval -> pyval) :
  h !! d = Some (ODict (kv1 ++ (x, y) :: kv2) false) ->
  Dict__f op_getattr args kw = Ok p ->
  returns_on2 p (fun x y => PTuple [gk x y; gv x y]) kv1 ->
  Forall (fun e => hashable (gk e.1 e.2) = true) kv1 ->
  p x y = Ok item ->
  unpack_pair item = Raise ex \/
  (exists k v, unpack_pair item = Ok (k, v) /\ hashable k = false /\
     ex = TypeError) ->
  Dict_map op_getattr args kw d h = Raise ex /\
  (forall v, unpack_pair (PInt v) = Raise TypeError) /\
  unpack_pair PNone = Raise TypeError /\
  (forall a b c l, unpack_pair (PTuple (a :: b :: c :: l)) = Raise ValueError)
  /\
  (forall a, unpack_pair (PTuple [a]) = Raise ValueError).
Proof.
  intros Hd Hp Hg Hh Hx Hitem. split; [|by repeat split].
  unfold Dict_map, Dict__moka_assign, Dict_new.
  destruct (dict_items_lookup _ _ _ _ Hd) as [-> ->]. rewrite Hp. cbn.
  by rewrite (dict_fill_map_raise p gk gv kv1 kv2 [] x y item ex Hg Hh Hx
                Hitem).
Qed.

Lemma Dict_map_bad_item_witness :
  Dict_map operator_cmp (Args double_value []) [] 1%positive h_abc
  = Raise TypeError.
Proof.
  eapply (Dict_map_bad_item operator_cmp (Args double_value []) []
            1%positive h_abc [] _ (PStr "a") (PInt 1) (PInt 2) TypeError
            _ (fun x _ => x) (fun _ y => y) eq_refl eq_refl).
  - constructor.
  - constructor.
  - reflexivity.
  - by left.
Defined.
